(** * classScheduleProject: the schedule loader of [script.js]

    A shallow embedding of the page script: the two static catalogs, the
    icon and animation-delay helpers, the asynchronous loader and the two
    event handlers, followed by the properties of the specification.

    The script exists in two versions in the repository (the current one,
    with icons and the fibonacci delay, and the earlier one, with a linear
    delay and other student names).  The loader is the same in both; it is
    written once, in a section over the catalog and the card template, and
    instantiated twice ([Current] and [Earlier]). *)

From Stdlib Require Import ZArith List String Ascii Bool Lia.
From Stdlib Require Import Permutation Sorted.
From Stdlib Require Import PrimFloat SpecFloat FloatOps FloatAxioms.
From Stdlib Require Import DecimalString.
Import ListNotations.

Set Warnings "-inexact-float".
Local Open Scope string_scope.
Local Open Scope list_scope.
Local Open Scope Z_scope.

(** * JavaScript values *)

Module JS.

(** Text produced by string conversion and concatenation.  Characters the
    model computes are [Chars]; the three conversions whose characters are
    chosen by the engine stay symbolic: the decimal rendering of a double
    that is not an integer of the model ([NumberText]), the source text of
    a built-in function ([NativeCode]) and the message of a [TypeError]
    raised by the engine itself ([EngineText]). *)
Inductive diagnostic : Type :=
  | NotAFunction (callee : string)
  | PropertyOfNull (property : string)
  | NotPrimitive.

Inductive piece : Type :=
  | Chars (s : string)
  | NumberText (x : float)
  | NativeCode (name : string)
  | EngineText (d : diagnostic).

Definition text : Type := list piece.

Definition str (s : string) : text := [Chars s].

(** [occurs needle t]: the characters [needle] occur in [t], inside one of
    its computed parts. *)
Definition occurs (needle : string) (t : text) : Prop :=
  exists s pre post, In (Chars s) t /\ s = (pre ++ needle ++ post)%string.

Definition piece_empty (p : piece) : bool :=
  match p with
  | Chars EmptyString => true
  | _ => false
  end.

(** The values the script computes with, besides the typed fields of the
    schedule entries: [undefined], a double, a string, and a member found on
    [Object.prototype] (a built-in function, or the prototype object itself
    for [__proto__]). *)
Inductive value : Type :=
  | VUndefined
  | VNumber (x : float)
  | VString (t : text)
  | VBuiltin (name : string).

(** ToBoolean *)
Definition truthy (v : value) : bool :=
  match v with
  | VUndefined => false
  | VNumber x => negb (PrimFloat.eqb x 0 || PrimFloat.is_nan x)
  | VString t => negb (forallb piece_empty t)
  | VBuiltin _ => true
  end.

(** [a || b] *)
Definition or_else (a b : value) : value := if truthy a then a else b.

(** [Object.prototype.toString] of a plain object *)
Definition object_Object : string := "[object Object]".

(** ToString *)
Definition ToString (v : value) : text :=
  match v with
  | VUndefined => str "undefined"
  | VNumber x => [NumberText x]
  | VString t => t
  | VBuiltin "__proto__" => str object_Object
  | VBuiltin name => [NativeCode name]
  end.

(** The decimal text of an integer-valued number. *)
Definition decimal (z : Z) : string := NilZero.string_of_int (Z.to_int z).

(** The property names every object literal inherits from
    [Object.prototype] (ECMAScript 2023, 20.1.3 and B.2.2). *)
Definition Object_prototype : list string :=
  [ "constructor"; "hasOwnProperty"; "isPrototypeOf"; "propertyIsEnumerable";
    "toLocaleString"; "toString"; "valueOf"; "__proto__";
    "__defineGetter__"; "__defineSetter__"; "__lookupGetter__";
    "__lookupSetter__" ].

Definition inherited (key : string) : bool :=
  if in_dec string_dec key Object_prototype then true else false.

Fixpoint own_property {A : Type} (o : list (string * A)) (key : string)
  : option A :=
  match o with
  | [] => None
  | (k, a) :: o' => if String.eqb k key then Some a else own_property o' key
  end.

(** [o[key]] on an object literal [o]: an own property first, then the
    prototype chain, which for an object literal is [Object.prototype]. *)
Definition get (o : list (string * value)) (key : string) : value :=
  match own_property o key with
  | Some v => v
  | None => if inherited key then VBuiltin key else VUndefined
  end.

(** ToPropertyKey, for the values used as keys: a string names itself and
    [undefined] names the property "undefined".  The remaining texts (the
    source of a built-in, the rendering of a double) name no property of
    the object literals of the script: [None]. *)
Definition ToPropertyKey (v : value) : option string :=
  match v with
  | VUndefined => Some "undefined"
  | VString [Chars s] => Some s
  | VBuiltin "__proto__" => Some object_Object
  | _ => None
  end.

Definition get_value (o : list (string * value)) (key : value) : value :=
  match ToPropertyKey key with
  | Some k => get o k
  | None => VUndefined
  end.

(** ** Exceptions *)

Record error : Type := { message : text }.

Inductive result (A : Type) : Type :=
  | Ok (a : A)
  | Throw (e : error).
Arguments Ok {A} a.
Arguments Throw {A} e.

Definition bind {A B : Type} (r : result A) (k : A -> result B) : result B :=
  match r with
  | Ok a => k a
  | Throw e => Throw e
  end.

Definition TypeError (d : diagnostic) : error := {| message := [EngineText d] |}.

End JS.

Import JS.

(** * Numbers

    Numbers are IEEE 754 doubles ([float], the kernel's binary64).  The
    integers of the model (array indices, periods, status codes) enter
    double arithmetic through [Number.of_Z], which rounds to nearest even
    as the engine does and is exact up to [2^53]. *)

Module Number.

Definition of_Z (z : Z) : float := SF2Prim (binary_normalize 53 1024 z 0 false).

Definition of_nat (n : nat) : float := of_Z (Z.of_nat n).

(** The numbers of the resource.  A double that is an integer of
    magnitude at most [2^53] is kept as that integer, as engines keep
    small integers apart: IEEE 754 returns a representable result
    exactly, so on these the subtraction of doubles is the subtraction of
    integers whenever the difference is such an integer again, and
    otherwise the nearest double of the exact difference; their text is
    the decimal text of the integer.  Any other double is kept as a
    [float], and its text stays symbolic. *)
Definition safe (z : Z) : bool := Z.abs z <=? 2 ^ 53.

Inductive num : Type :=
  | Int (z : Z)
  | Dbl (x : float).

(** What [JSON.parse] reads from an integer literal: the nearest double. *)
Definition of_integer (z : Z) : num := if safe z then Int z else Dbl (of_Z z).

Definition to_double (a : num) : float :=
  match a with
  | Int z => of_Z z
  | Dbl x => x
  end.

(** [a - b] *)
Definition minus (a b : num) : num :=
  match a, b with
  | Int x, Int y => of_integer (x - y)
  | _, _ => Dbl (to_double a - to_double b)
  end.

Definition is_NaN (a : num) : bool :=
  match a with
  | Int _ => false
  | Dbl x => PrimFloat.is_nan x
  end.

(** [0 < a] *)
Definition positive (a : num) : bool :=
  match a with
  | Int z => 0 <? z
  | Dbl x => PrimFloat.ltb 0 x
  end.

(** Number::toString *)
Definition to_text (a : num) : text :=
  match a with
  | Int z => str (decimal z)
  | Dbl x => [NumberText x]
  end.

(** [x % y] (Number::remainder): the exact remainder of the truncating
    division, with the sign of the dividend. *)
Definition rem (x y : float) : float :=
  match Prim2SF x, Prim2SF y with
  | S754_nan, _ | _, S754_nan => nan
  | S754_infinity _, _ => nan
  | _, S754_zero _ => nan
  | S754_zero _, _ => x
  | S754_finite _ _ _, S754_infinity _ => x
  | S754_finite sx mx ex, S754_finite _ my ey =>
      let e := Z.min ex ey in
      let r := Z.rem (Z.pos mx * 2 ^ (ex - e)) (Z.pos my * 2 ^ (ey - e)) in
      if Z.eqb r 0 then (if sx then neg_zero else zero)
      else SF2Prim (binary_normalize 53 1024 (if sx then - r else r) e false)
  end.

(** [a + b] on the values of the script: a number is added to a number;
    with any other operand both sides are converted to strings and
    concatenated ([undefined] excepted, which makes the sum [NaN]). *)
Definition add (a b : value) : value :=
  match a, b with
  | VNumber x, VNumber y => VNumber (x + y)%float
  | VNumber _, VUndefined | VUndefined, VNumber _ | VUndefined, VUndefined =>
      VNumber nan
  | _, _ => VString (ToString a ++ ToString b)
  end.

End Number.

(** * Schedule entries

    One element of the parsed array.  The resource format gives the five
    fields their types (the numbers of the resources are integers); each
    may be absent, which a property access reads as [undefined] ([None]).  A [null] element is kept apart: a property
    access on it throws.  Any other non-object element (a number, a string)
    reads as an entry with no field.

    A field may also hold an object that has no primitive value: one
    with an own [toString] that is not callable, as the JSON text
    [{"toString": 0}] parses to (the inherited [valueOf] returns the
    object itself).  Converting it to a number, a string or a property
    key throws.  [Unconvertible c broken] is the entry whose field
    [broken] holds such an object and whose other fields are those of
    [c].  The other values a field can hold (a boolean, a string where a
    number is expected, an array or an object that does convert) change
    the text or the number the field converts to and nothing else; they
    are outside the model. *)

Inductive room : Type :=
  | RoomNumber (z : Z)
  | RoomName (s : string).

Record classItem : Type := {
  period : option Z;
  className : option string;
  teacher : option string;
  roomNumber : option room;
  subjectArea : option string
}.

Inductive field_name : Type :=
  | f_period
  | f_className
  | f_teacher
  | f_roomNumber
  | f_subjectArea.

Definition same_field (a b : field_name) : bool :=
  match a, b with
  | f_period, f_period | f_className, f_className | f_teacher, f_teacher
  | f_roomNumber, f_roomNumber | f_subjectArea, f_subjectArea => true
  | _, _ => false
  end.

Inductive element : Type :=
  | Null
  | Item (c : classItem)
  | Unconvertible (c : classItem) (broken : field_name).

(** [e.name]: reading a property throws on [null] only. *)
Definition field {A : Type} (proj : classItem -> option A) (name : string)
    (e : element) : result (option A) :=
  match e with
  | Null => Throw (TypeError (PropertyOfNull name))
  | Item c | Unconvertible c _ => Ok (proj c)
  end.

(** ToPrimitive of the field [name] of [e], the first step of every
    conversion of the field to a number, a string or a property key. *)
Definition ToPrimitive (name : field_name) (e : element) : result unit :=
  match e with
  | Unconvertible _ broken =>
      if same_field broken name then Throw (TypeError NotPrimitive) else Ok tt
  | _ => Ok tt
  end.

Definition string_value (o : option string) : value :=
  match o with
  | Some s => VString (str s)
  | None => VUndefined
  end.

(** ToNumber of a period *)
Definition period_number (o : option Z) : float :=
  match o with
  | Some z => Number.of_Z z
  | None => nan
  end.

(** ToNumber of a period, for the comparison of the sort. *)
Definition period_num (o : option Z) : Number.num :=
  match o with
  | Some z => Number.of_integer z
  | None => Number.Dbl nan
  end.

(** The text a template literal substitutes for a field. *)
Definition period_text (o : option Z) : text :=
  match o with
  | Some z => Number.to_text (Number.of_integer z)
  | None => str "undefined"
  end.

Definition string_text (o : option string) : text := ToString (string_value o).

Definition room_text (o : option room) : text :=
  match o with
  | Some (RoomNumber z) => Number.to_text (Number.of_integer z)
  | Some (RoomName s) => str s
  | None => str "undefined"
  end.

(** * Array.prototype.sort

    The comparison function of the loader, [(a, b) => a.period - b.period]:
    both properties are read, then both are converted to numbers and
    subtracted.  A missing period converts to [NaN]. *)

Definition comparefn (a b : element) : result Number.num :=
  bind (field period "period" a) (fun pa =>
  bind (field period "period" b) (fun pb =>
  bind (ToPrimitive f_period a) (fun _ =>
  bind (ToPrimitive f_period b) (fun _ =>
  Ok (Number.minus (period_num pa) (period_num pb)))))).

(** SortCompare: a [NaN] from the comparison function counts as [+0]. *)
Definition SortCompare (a b : element) : result Number.num :=
  bind (comparefn a b) (fun v =>
  Ok (if Number.is_NaN v then Number.Int 0 else v)).

(** The sort itself is the engine's.  ECMAScript (2019 on) requires it to
    be stable, which fixes its result when the comparison function is
    consistent on the elements: here, when every period is a number.  The
    model is the stable insertion sort: an element moves right past those
    that compare strictly greater.  When a period is missing the
    comparison returns [NaN], the function is not consistent, and the
    order is whatever the engine's algorithm happens to leave; the
    insertion sort then gives one order among those and no more, and
    always a permutation.  Everything stated below about the order
    assumes numeric periods.  With two elements or more every element
    is handed to the comparison function, in any algorithm. *)
Fixpoint insert (x : element) (sorted : list element) : result (list element) :=
  match sorted with
  | [] => Ok [x]
  | y :: rest =>
      bind (SortCompare x y) (fun v =>
      if Number.positive v then bind (insert x rest) (fun r => Ok (y :: r))
      else Ok (x :: y :: rest))
  end.

Fixpoint sort (l : list element) : result (list element) :=
  match l with
  | [] => Ok []
  | x :: rest => bind (sort rest) (insert x)
  end.

(** * The page *)

(** One card: the values substituted in the template of [cardHTML], in
    the order of the template; the markup between them is constant.  The
    earlier version has no icon. *)
Record card : Type := {
  animation_delay : text;
  period_badge : text;
  icon : option text;
  class_name : text;
  teacher_info : text;
  room_info : text;
  subject_badge : text
}.

(** [statusDiv.innerHTML]: one of the three markups the script assigns. *)
Inductive status : Type :=
  | Loading
  | Cleared
  | Alert (details : text).

(** The characters the status region shows. *)
Definition status_text (s : status) : text :=
  match s with
  | Loading => str "Loading schedule..."
  | Cleared => []
  | Alert details =>
      [ Chars "Error!";
        Chars " Unable to load the schedule. Please check the file path and try again.";
        Chars "Error details: " ] ++ details
  end.

(** The [select] element: its options and its current value. *)
Record select : Type := {
  options : list string;
  selected : string
}.

Record dom : Type := {
  statusDiv : status;
  scheduleContainer : list card;
  currentScheduleDisplay : text;
  scheduleSelect : select;
  console : list error
}.

Definition set_statusDiv (s : status) (d : dom) : dom :=
  {| statusDiv := s;
     scheduleContainer := scheduleContainer d;
     currentScheduleDisplay := currentScheduleDisplay d;
     scheduleSelect := scheduleSelect d;
     console := console d |}.

Definition set_scheduleContainer (c : list card) (d : dom) : dom :=
  {| statusDiv := statusDiv d;
     scheduleContainer := c;
     currentScheduleDisplay := currentScheduleDisplay d;
     scheduleSelect := scheduleSelect d;
     console := console d |}.

Definition set_currentScheduleDisplay (t : text) (d : dom) : dom :=
  {| statusDiv := statusDiv d;
     scheduleContainer := scheduleContainer d;
     currentScheduleDisplay := t;
     scheduleSelect := scheduleSelect d;
     console := console d |}.

(** [insertAdjacentHTML("beforeend", cardHTML)] *)
Definition insertAdjacentHTML (c : card) (d : dom) : dom :=
  set_scheduleContainer (scheduleContainer d ++ [c]) d.

Definition console_error (e : error) (d : dom) : dom :=
  {| statusDiv := statusDiv d;
     scheduleContainer := scheduleContainer d;
     currentScheduleDisplay := currentScheduleDisplay d;
     scheduleSelect := scheduleSelect d;
     console := console d ++ [e] |}.

(** [scheduleSelect.value = v]: the option whose value is the string of
    [v] becomes the selected one; with no such option none is selected and
    the value reads as the empty string (HTML, the select element). *)
Definition set_value (v : value) (d : dom) : dom :=
  let chosen :=
    match ToString v with
    | [Chars s] =>
        if in_dec string_dec s (options (scheduleSelect d)) then s else EmptyString
    | _ => EmptyString
    end in
  {| statusDiv := statusDiv d;
     scheduleContainer := scheduleContainer d;
     currentScheduleDisplay := currentScheduleDisplay d;
     scheduleSelect := {| options := options (scheduleSelect d); selected := chosen |};
     console := console d |}.

(** * Statements: state and exceptions

    A statement of the script runs on the page and either completes or
    throws; what it wrote to the page before throwing stays written. *)

Definition js (A : Type) : Type := dom -> result A * dom.

Definition ret {A : Type} (a : A) : js A := fun d => (Ok a, d).

Definition throw {A : Type} (e : error) : js A := fun d => (Throw e, d).

Definition lift {A : Type} (r : result A) : js A := fun d => (r, d).

Definition modify (f : dom -> dom) : js unit := fun d => (Ok tt, f d).

Definition seq_js {A B : Type} (m : js A) (k : A -> js B) : js B :=
  fun d =>
    match m d with
    | (Ok a, d') => k a d'
    | (Throw e, d') => (Throw e, d')
    end.

Notation "x <- m ;; k" := (seq_js m (fun x => k))
  (at level 61, m at next level, right associativity).
Notation "m ;; k" := (seq_js m (fun _ => k))
  (at level 61, right associativity).

(** [try { body } catch (error) { handler }] *)
Definition try_catch (body : js unit) (handler : error -> js unit) : js unit :=
  fun d =>
    match body d with
    | (Ok tt, d') => (Ok tt, d')
    | (Throw e, d') => handler e d'
    end.

(** [array.forEach((classItem, index) => ...)], from [index] on. *)
Fixpoint forEach (callback : element -> nat -> js unit) (array : list element)
    (index : nat) : js unit :=
  match array with
  | [] => ret tt
  | classItem :: rest =>
      callback classItem index ;; forEach callback rest (S index)
  end.

(** * The network

    The request is for [./json/${fileName}]; what it settles to is the
    network's answer and comes to the model as an input. *)

(** What [response.json()] settles to. *)
Inductive document : Type :=
  | JNull
  | JOther
  | JArray (elements : list element).

Inductive body : Type :=
  | Malformed (e : error)
  | Parsed (j : document).

(** What [fetch] settles to: a rejection, or a response with its status
    and, once read, its body. *)
Inductive outcome : Type :=
  | Rejected (e : error)
  | Response (status : Z) (b : body).

(** [response.ok]: the status is in the range 200 to 299. *)
Definition ok (status : Z) : bool := (200 <=? status) && (status <=? 299).

(** [scheduleData.sort(...)]: the array method on an array; [null] has no
    properties, and any other parsed value has no callable [sort]. *)
Definition sort_document (j : document) : result (list element) :=
  match j with
  | JNull => Throw (TypeError (PropertyOfNull "sort"))
  | JOther => Throw (TypeError (NotAFunction "scheduleData.sort"))
  | JArray l => sort l
  end.

(** * The loader *)

Section Loader.

Variable scheduleFiles : list (string * value).
Variable scheduleNames : list (string * value).
Variable cardHTML : element -> nat -> result card.
Variable defaultFile : string.

(** The statements of [loadSchedule] up to the call of [fetch], where the
    function suspends. *)
Definition loadSchedule_begin : js unit :=
  modify (set_statusDiv Loading) ;;
  modify (set_scheduleContainer []).

(** The arrow function given to [forEach]: build the card, append it. *)
Definition render (classItem : element) (index : nat) : js unit :=
  c <- lift (cardHTML classItem index) ;;
  modify (insertAdjacentHTML c).

(** The rest of the [try] block, run when the request has settled. *)
Definition loadSchedule_try (fileName : value) (o : outcome) : js unit :=
  match o with
  | Rejected e => throw e
  | Response status b =>
      (if ok status then ret tt
       else throw {| message := str ("Failed to load schedule: " ++ decimal status) |}) ;;
      match b with
      | Malformed e => throw e
      | Parsed j =>
          scheduleData <- lift (sort_document j) ;;
          modify (set_statusDiv Cleared) ;;
          modify (set_currentScheduleDisplay
                    (ToString (get_value scheduleNames fileName) ++ str "'s Schedule")) ;;
          forEach render scheduleData 0
      end
  end.

Definition loadSchedule_catch (e : error) : js unit :=
  modify (console_error e) ;;
  modify (set_statusDiv (Alert (message e))) ;;
  modify (set_currentScheduleDisplay (str "Error loading schedule")).

Definition loadSchedule_settle (fileName : value) (o : outcome) : js unit :=
  try_catch (loadSchedule_try fileName o) loadSchedule_catch.

(** One call of [loadSchedule] with nothing else running between its
    start and the settling of its request. *)
Definition loadSchedule (fileName : value) (o : outcome) : js unit :=
  loadSchedule_begin ;; loadSchedule_settle fileName o.

(** ** The event loop

    The page and the calls of [loadSchedule] that are suspended on their
    request, oldest first. *)
Record state : Type := {
  page : dom;
  pending : list value
}.

Inductive event : Type :=
  | DOMContentLoaded
  | Change (chosen : string)
  | KeyDown (key : string)
  | Settle (n : nat) (o : outcome).

Definition run (m : js unit) (s : state) : state :=
  {| page := snd (m (page s)); pending := pending s |}.

(** A call of [loadSchedule] from a handler: it runs to its [await] and
    is then pending. *)
Definition call_loadSchedule (fileName : value) (s : state) : state :=
  {| page := snd (loadSchedule_begin (page s));
     pending := pending s ++ [fileName] |}.

(** The [change] listener; [event.target.value] is the value of the
    option the user chose. *)
Definition on_change (s : state) : state :=
  let selectedFile := VString (str (selected (scheduleSelect (page s)))) in
  call_loadSchedule selectedFile s.

(** The [keydown] listener. *)
Definition on_keydown (key : string) (s : state) : state :=
  if truthy (get scheduleFiles key) then
    let fileName := get scheduleFiles key in
    call_loadSchedule fileName (run (modify (set_value fileName)) s)
  else s.

Fixpoint remove_nth {A : Type} (n : nat) (l : list A) : list A :=
  match n, l with
  | _, [] => []
  | O, _ :: l' => l'
  | S n', x :: l' => x :: remove_nth n' l'
  end.

Definition step (s : state) (ev : event) : state :=
  match ev with
  | DOMContentLoaded => call_loadSchedule (VString (str defaultFile)) s
  | Change chosen => on_change (run (modify (set_value (VString (str chosen)))) s)
  | KeyDown key => on_keydown key s
  | Settle n o =>
      match nth_error (pending s) n with
      | Some fileName =>
          {| page := snd (loadSchedule_settle fileName o (page s));
             pending := remove_nth n (pending s) |}
      | None => s
      end
  end.

Definition steps (s : state) (evs : list event) : state := fold_left step evs s.

End Loader.

(** * The current version of the script *)

Definition object (l : list (string * string)) : list (string * value) :=
  map (fun kv => (fst kv, VString (str (snd kv)))) l.

Module Current.

Definition scheduleFiles : list (string * value) := object
  [ ("1", "SathvikSchedule.json");
    ("2", "AadarshSchedule.json");
    ("3", "EthanSchedule.json");
    ("4", "HankSchedule.json") ].

Definition scheduleNames : list (string * value) := object
  [ ("SathvikSchedule.json", "Sathvik");
    ("AadarshSchedule.json", "Aadarsh");
    ("EthanSchedule.json", "Ethan");
    ("HankSchedule.json", "Hank") ].

Definition iconMap : list (string * value) := object
  [ ("Math", "fa-solid fa-calculator");
    ("Technology", "fa-solid fa-laptop-code");
    ("English", "fa-solid fa-book");
    ("Science", "fa-solid fa-flask");
    ("Health", "fa-solid fa-heart-pulse");
    ("Physical Education", "fa-solid fa-person-running");
    ("Social Studies", "fa-solid fa-landmark");
    ("Financial Literacy", "fa-solid fa-chart-line") ].

Definition getSubjectIcon (subjectArea : value) : value :=
  or_else (get_value iconMap subjectArea) (VString (str "fa-solid fa-book-open")).

(** The inner [fib]: [n] itself up to 1, else the loop from [(0, 1)],
    run for [i = 2 .. n], in double arithmetic. *)
Fixpoint fib_loop (steps : nat) (a b : float) : float :=
  match steps with
  | O => b
  | S k => fib_loop k b (a + b)%float
  end.

Definition fib (n : nat) : float :=
  if (n <=? 1)%nat then Number.of_nat n else fib_loop (n - 1) 0%float 1%float.

Definition subjectWeights : list (string * value) :=
  [ ("Math", VNumber 0.05);
    ("Technology", VNumber 0.08);
    ("English", VNumber 0.12);
    ("Science", VNumber 0.15);
    ("Health", VNumber 0.07);
    ("Physical Education", VNumber 0.03);
    ("Social Studies", VNumber 0.10);
    ("Financial Literacy", VNumber 0.09) ].

(** [period] is the entry's period converted by ToNumber: the double of
    the integer, or [NaN] when the field is missing. *)
Definition calculateFibonacciDelay (index : nat) (period : float)
    (subjectArea : value) : value :=
  let fibValue := Number.rem (fib (index + 1)) 8 in
  let periodWeight := ((9 - period) * 0.02)%float in
  let subjectWeight := or_else (get_value subjectWeights subjectArea) (VNumber 0.1) in
  let randomFactor :=
    (Number.rem (Number.of_nat index * 7) 3 * 0.02)%float in
  Number.add
    (Number.add (VNumber (fibValue * 0.1 + periodWeight)%float) subjectWeight)
    (VNumber randomFactor).

(** The callback of [forEach] up to the template: the property reads
    and the conversions in the order of the source ([getSubjectIcon] uses
    the subject area as a property key, the delay subtracts the period,
    the template converts each field to a string).  The first read throws
    on [null], and the conversion of a field without primitive value
    throws. *)
Definition cardHTML (classItem : element) (index : nat) : result card :=
  bind (field subjectArea "subjectArea" classItem) (fun sa =>
  bind (ToPrimitive f_subjectArea classItem) (fun _ =>
  let subjectIcon := getSubjectIcon (string_value sa) in
  bind (field period "period" classItem) (fun p =>
  bind (ToPrimitive f_period classItem) (fun _ =>
  let fibonacciDelay :=
    calculateFibonacciDelay index (period_number p) (string_value sa) in
  bind (field className "className" classItem) (fun cn =>
  bind (ToPrimitive f_className classItem) (fun _ =>
  bind (field teacher "teacher" classItem) (fun t =>
  bind (ToPrimitive f_teacher classItem) (fun _ =>
  bind (field roomNumber "roomNumber" classItem) (fun rn =>
  bind (ToPrimitive f_roomNumber classItem) (fun _ =>
  Ok {| animation_delay := ToString fibonacciDelay;
        period_badge := period_text p;
        icon := Some (ToString subjectIcon);
        class_name := string_text cn;
        teacher_info := string_text t;
        room_info := room_text rn;
        subject_badge := string_text sa |})))))))))).

Definition defaultFile : string := "SathvikSchedule.json".

Definition loadSchedule_begin : js unit := loadSchedule_begin.
Definition loadSchedule_settle : value -> outcome -> js unit :=
  loadSchedule_settle scheduleNames cardHTML.
Definition loadSchedule : value -> outcome -> js unit :=
  loadSchedule scheduleNames cardHTML.
Definition on_keydown : string -> state -> state := on_keydown scheduleFiles.
Definition step : state -> event -> state :=
  step scheduleFiles scheduleNames cardHTML defaultFile.
Definition steps : state -> list event -> state :=
  steps scheduleFiles scheduleNames cardHTML defaultFile.

End Current.

(** * The earlier version of the script *)

Module Earlier.

Definition scheduleFiles : list (string * value) := object
  [ ("1", "SridarSchedule.json");
    ("2", "AadarshSchedule.json");
    ("3", "ChangSchedule.json");
    ("4", "HankSchedule.json") ].

Definition scheduleNames : list (string * value) := object
  [ ("SridarSchedule.json", "Sridar");
    ("AadarshSchedule.json", "Aadarsh");
    ("ChangSchedule.json", "Chang");
    ("HankSchedule.json", "Hank") ].

(** The template reads [index * 0.1] first, then the fields, converting
    each to a string; the read of [period] throws on [null]. *)
Definition cardHTML (classItem : element) (index : nat) : result card :=
  let delay := (Number.of_nat index * 0.1)%float in
  bind (field period "period" classItem) (fun p =>
  bind (ToPrimitive f_period classItem) (fun _ =>
  bind (field className "className" classItem) (fun cn =>
  bind (ToPrimitive f_className classItem) (fun _ =>
  bind (field teacher "teacher" classItem) (fun t =>
  bind (ToPrimitive f_teacher classItem) (fun _ =>
  bind (field roomNumber "roomNumber" classItem) (fun rn =>
  bind (ToPrimitive f_roomNumber classItem) (fun _ =>
  bind (field subjectArea "subjectArea" classItem) (fun sa =>
  bind (ToPrimitive f_subjectArea classItem) (fun _ =>
  Ok {| animation_delay := [NumberText delay];
        period_badge := period_text p;
        icon := None;
        class_name := string_text cn;
        teacher_info := string_text t;
        room_info := room_text rn;
        subject_badge := string_text sa |})))))))))).

Definition defaultFile : string := "SridarSchedule.json".

Definition loadSchedule_settle : value -> outcome -> js unit :=
  loadSchedule_settle scheduleNames cardHTML.
Definition loadSchedule : value -> outcome -> js unit :=
  loadSchedule scheduleNames cardHTML.
Definition on_keydown : string -> state -> state := on_keydown scheduleFiles.
Definition step : state -> event -> state :=
  step scheduleFiles scheduleNames cardHTML defaultFile.
Definition steps : state -> list event -> state :=
  steps scheduleFiles scheduleNames cardHTML defaultFile.

End Earlier.

(** * Vocabulary of the properties *)

(** ** The two versions at once *)

Inductive version : Type :=
  | current
  | earlier.

Definition scheduleFiles_of (v : version) : list (string * value) :=
  match v with
  | current => Current.scheduleFiles
  | earlier => Earlier.scheduleFiles
  end.

Definition scheduleNames_of (v : version) : list (string * value) :=
  match v with
  | current => Current.scheduleNames
  | earlier => Earlier.scheduleNames
  end.

Definition cardHTML_of (v : version) : element -> nat -> result card :=
  match v with
  | current => Current.cardHTML
  | earlier => Earlier.cardHTML
  end.

Definition defaultFile_of (v : version) : string :=
  match v with
  | current => Current.defaultFile
  | earlier => Earlier.defaultFile
  end.

Definition settle_of (v : version) : value -> outcome -> js unit :=
  loadSchedule_settle (scheduleNames_of v) (cardHTML_of v).

Definition loadSchedule_of (v : version) : value -> outcome -> js unit :=
  loadSchedule (scheduleNames_of v) (cardHTML_of v).

Definition step_of (v : version) : state -> event -> state :=
  step (scheduleFiles_of v) (scheduleNames_of v) (cardHTML_of v) (defaultFile_of v).

Definition steps_of (v : version) : state -> list event -> state :=
  steps (scheduleFiles_of v) (scheduleNames_of v) (cardHTML_of v) (defaultFile_of v).

(** ** Sorted entries *)

(** The sort on arrays without [null]: the same insertion, on entries. *)
Definition after (x y : classItem) : bool :=
  let v := Number.minus (period_num (period x)) (period_num (period y)) in
  Number.positive (if Number.is_NaN v then Number.Int 0 else v).

Fixpoint insert_item (x : classItem) (sorted : list classItem) : list classItem :=
  match sorted with
  | [] => [x]
  | y :: rest => if after x y then y :: insert_item x rest else x :: y :: rest
  end.

Fixpoint sort_items (l : list classItem) : list classItem :=
  match l with
  | [] => []
  | x :: rest => insert_item x (sort_items rest)
  end.

(** Entries with a numeric period, ordered by it. *)
Definition has_period (c : classItem) : Prop := period c <> None.

(** Entries as the data model has them: the period is an integer (any
    integer a schedule can hold, here up to [2^52] in magnitude). *)
Definition integer_period (c : classItem) : Prop :=
  exists z, period c = Some z /\ Z.abs z <= 2 ^ 52.

Definition period_le (a b : classItem) : Prop :=
  exists x y, period a = Some x /\ period b = Some y /\ x <= y.

(** Stability: the entries of one period keep their order. *)
Definition period_is (p : option Z) (c : classItem) : bool :=
  match period c, p with
  | Some a, Some b => a =? b
  | None, None => true
  | _, _ => false
  end.

(** ** Cards and pages *)

(** A card shows an entry: its five field slots hold the texts of the
    entry's fields. *)
Definition shows (c : classItem) (k : card) : Prop :=
  period_badge k = period_text (period c) /\
  class_name k = string_text (className c) /\
  teacher_info k = string_text (teacher c) /\
  room_info k = room_text (roomNumber c) /\
  subject_badge k = string_text (subjectArea c).

(** A card carries an entry: the text of each field the entry has
    stands, unchanged, in its place in the card (a number as its decimal
    digits). *)
Definition carries (c : classItem) (k : card) : Prop :=
  (forall z, period c = Some z -> Z.abs z <= 2 ^ 53 ->
             period_badge k = [Chars (decimal z)]) /\
  (forall s, className c = Some s -> class_name k = [Chars s]) /\
  (forall s, teacher c = Some s -> teacher_info k = [Chars s]) /\
  (forall z, roomNumber c = Some (RoomNumber z) -> Z.abs z <= 2 ^ 53 ->
             room_info k = [Chars (decimal z)]) /\
  (forall s, roomNumber c = Some (RoomName s) -> room_info k = [Chars s]) /\
  (forall s, subjectArea c = Some s -> subject_badge k = [Chars s]).




(** The page after a load that rendered [cards], and after one that
    failed with [e]. *)
Definition loaded (label : text) (cards : list card) (d : dom) : dom :=
  {| statusDiv := Cleared;
     scheduleContainer := scheduleContainer d ++ cards;
     currentScheduleDisplay := label;
     scheduleSelect := scheduleSelect d;
     console := console d |}.

Definition failed (e : error) (d : dom) : dom :=
  {| statusDiv := Alert (message e);
     scheduleContainer := scheduleContainer d;
     currentScheduleDisplay := str "Error loading schedule";
     scheduleSelect := scheduleSelect d;
     console := console d ++ [e] |}.

(** The page after a load that failed with [e] once it had appended
    [cards]. *)
Definition failed_after (cards : list card) (e : error) (d : dom) : dom :=
  {| statusDiv := Alert (message e);
     scheduleContainer := scheduleContainer d ++ cards;
     currentScheduleDisplay := str "Error loading schedule";
     scheduleSelect := scheduleSelect d;
     console := console d ++ [e] |}.

(** The cards the loop builds from an array, the first at [index], and
    the error it stops at, if any. *)
Fixpoint rendered (cardHTML : element -> nat -> result card)
    (l : list element) (index : nat) : list card * option error :=
  match l with
  | [] => ([], None)
  | x :: rest =>
      match cardHTML x index with
      | Ok k =>
          let (ks, r) := rendered cardHTML rest (S index) in (k :: ks, r)
      | Throw e => ([], Some e)
      end
  end.

(** The start of a call: the loading indicator, and an empty container. *)
Definition begun (d : dom) : dom :=
  {| statusDiv := Loading;
     scheduleContainer := [];
     currentScheduleDisplay := currentScheduleDisplay d;
     scheduleSelect := scheduleSelect d;
     console := console d |}.

Definition label (scheduleNames : list (string * value)) (fileName : value)
  : text :=
  ToString (get_value scheduleNames fileName) ++ str "'s Schedule".

(** The cards of a list of entries, the first at [index]. *)
Fixpoint cards_from (cardHTML : element -> nat -> result card)
    (l : list classItem) (index : nat) : list card :=
  match l with
  | [] => []
  | c :: rest =>
      match cardHTML (Item c) index with
      | Ok k => k :: cards_from cardHTML rest (S index)
      | Throw _ => []
      end
  end.

(** The cards a version builds for a list of entries. *)
Definition cards_of (v : version) (l : list classItem) : list card :=
  cards_from (cardHTML_of v) l 0.

(** The characters of the alert before the error detail. *)
Definition alert_heading : text :=
  [ Chars "Error!";
    Chars " Unable to load the schedule. Please check the file path and try again.";
    Chars "Error details: " ].


Definition undefined_where_missing (c : classItem) (k : card) : Prop :=
  (period c = None -> period_badge k = str "undefined") /\
  (className c = None -> class_name k = str "undefined") /\
  (teacher c = None -> teacher_info k = str "undefined") /\
  (roomNumber c = None -> room_info k = str "undefined") /\
  (subjectArea c = None -> subject_badge k = str "undefined").

Definition fallback_icon : value := VString (str "fa-solid fa-book-open").

(** The resource names [scheduleFiles] maps to. *)
Definition resources (v : version) : list string :=
  flat_map (fun kv => match snd kv with
                      | VString [Chars r] => [r]
                      | _ => []
                      end) (scheduleFiles_of v).

(** Modelled from the spec: the page markup (the [select] and its
    options) is not among the sources; by the specification the control
    offers the catalog's resource names, so these are its options. *)
Definition catalog_page (v : version) (d : dom) : Prop :=
  options (scheduleSelect d) = resources v.

(** A parsed body that is not a list of entries: [null], a value that is
    not an array, or an array with a [null] element. *)
Definition not_entries (j : document) : Prop :=
  j = JNull \/ j = JOther \/ exists l, j = JArray l /\ In Null l.

(** The Fibonacci sequence on the integers. *)
Fixpoint Fibonacci_pair (n : nat) : Z * Z :=
  match n with
  | O => (0, 1)
  | S k => let (a, b) := Fibonacci_pair k in (b, a + b)
  end.

Definition Fibonacci (n : nat) : Z := fst (Fibonacci_pair n).

(** ** The delay on ordinary inputs *)

Definition weights : list float :=
  [0.05; 0.08; 0.12; 0.15; 0.07; 0.03; 0.10; 0.09; 0.1]%float.

Definition fibValue (index : nat) : float :=
  Number.rem (Current.fib (index + 1)) 8.

Definition randomFactor (index : nat) : float :=
  (Number.rem (Number.of_nat index * 7) 3 * 0.02)%float.

Definition in_range (v : value) : bool :=
  match v with
  | VNumber x => PrimFloat.leb 0.05 x && PrimFloat.leb x 1.05
  | _ => false
  end.

Definition delay_sum (a r : float) (period : Z) (w : float) : value :=
  Number.add
    (Number.add (VNumber (a * 0.1 + (9 - Number.of_Z period) * 0.02)%float)
       (VNumber w))
    (VNumber r).

Definition delays_in_range (index : nat) : bool :=
  let a := fibValue index in
  let r := randomFactor index in
  forallb (fun p => forallb (fun w => in_range (delay_sum a r p w)) weights)
    [1; 2; 3; 4; 5; 6; 7; 8].

(** ** Sample resources *)

(** The entries of the example of C1: periods 3, 1, 2. *)
Definition entry (p : Z) (name instructor : string) (r : Z) (subject : string)
  : classItem :=
  {| period := Some p;
     className := Some name;
     teacher := Some instructor;
     roomNumber := Some (RoomNumber r);
     subjectArea := Some subject |}.

Definition example_entries : list classItem :=
  [ entry 3 "Biology" "Ms. Cole" 210 "Science";
    entry 1 "Algebra II" "Mr. Diaz" 104 "Math";
    entry 2 "World History" "Ms. Park" 118 "Social Studies" ].

(** Two entries of period 2 around one of period 1. *)
Definition tie_entries : list classItem :=
  [ entry 2 "Chemistry" "Mr. Ito" 301 "Science";
    entry 1 "English 10" "Ms. Ward" 12 "English";
    entry 2 "Robotics" "Mr. Ito" 302 "Technology" ].

(** An entry with only a class name and a room. *)
Definition partial_entries : list classItem :=
  [ {| period := None;
       className := Some "Study Hall";
       teacher := None;
       roomNumber := Some (RoomName "Library");
       subjectArea := None |} ].

Definition blank_page : dom :=
  {| statusDiv := Cleared;
     scheduleContainer := [];
     currentScheduleDisplay := [];
     scheduleSelect :=
       {| options :=
            [ "SathvikSchedule.json"; "AadarshSchedule.json";
              "EthanSchedule.json"; "HankSchedule.json" ];
          selected := "SathvikSchedule.json" |};
     console := [] |}.

Definition start : state := {| page := blank_page; pending := [] |}.


(** * Properties of the sort *)

Lemma SortCompare_Item (x y : classItem) :
  exists v, SortCompare (Item x) (Item y) = Ok v /\ Number.positive v = after x y.
Proof.
  unfold SortCompare, comparefn, after. cbn [field ToPrimitive bind]. eauto.
Qed.

Lemma insert_Item (x : classItem) (l : list classItem) :
  insert (Item x) (map Item l) = Ok (map Item (insert_item x l)).
Proof.
  induction l as [|y l IH]; [reflexivity|].
  cbn [map insert insert_item].
  destruct (SortCompare_Item x y) as (v & -> & Hv); cbn [bind].
  rewrite Hv. destruct (after x y); [|reflexivity].
  rewrite IH. reflexivity.
Qed.

Lemma sort_Item (l : list classItem) :
  sort (map Item l) = Ok (map Item (sort_items l)).
Proof.
  induction l as [|x l IH]; [reflexivity|].
  cbn [map sort]. rewrite IH. cbn [bind]. apply insert_Item.
Qed.

Lemma insert_item_perm (x : classItem) (l : list classItem) :
  Permutation (x :: l) (insert_item x l).
Proof.
  induction l as [|y l IH]; simpl; [constructor; constructor|].
  destruct (after x y); [|reflexivity].
  etransitivity; [apply perm_swap|]. now apply perm_skip.
Qed.

Lemma sort_items_perm (l : list classItem) : Permutation l (sort_items l).
Proof.
  induction l as [|x l IH]; simpl; [constructor|].
  etransitivity; [apply perm_skip, IH|]. apply insert_item_perm.
Qed.

Lemma integer_has_period (c : classItem) : integer_period c -> has_period c.
Proof. intros (z & H & _). unfold has_period. congruence. Qed.

Lemma safe_small (z : Z) : Z.abs z <= 2 ^ 53 -> Number.safe z = true.
Proof. intros H. unfold Number.safe. now apply Z.leb_le. Qed.

(** On integer periods the comparison of the sort is that of the
    integers. *)
Lemma after_integer (x y : classItem) (a b : Z) :
  period x = Some a -> period y = Some b ->
  Z.abs a <= 2 ^ 52 -> Z.abs b <= 2 ^ 52 ->
  after x y = (0 <? a - b).
Proof.
  intros Hx Hy Ha Hb. unfold after. rewrite Hx, Hy.
  cbn [period_num]. unfold Number.of_integer.
  rewrite !safe_small by lia.
  cbn [Number.minus]. unfold Number.of_integer.
  rewrite safe_small by lia. reflexivity.
Qed.

Lemma after_false_le (x y : classItem) :
  integer_period x -> integer_period y -> after x y = false -> period_le x y.
Proof.
  intros (a & Hx & Ha) (b & Hy & Hb).
  rewrite (after_integer x y a b Hx Hy Ha Hb).
  intros H. apply Z.ltb_ge in H. exists a, b; repeat split; trivial; lia.
Qed.

Lemma after_true_le (x y : classItem) :
  integer_period x -> integer_period y -> after x y = true -> period_le y x.
Proof.
  intros (a & Hx & Ha) (b & Hy & Hb).
  rewrite (after_integer x y a b Hx Hy Ha Hb).
  intros H. apply Z.ltb_lt in H. exists b, a; repeat split; trivial; lia.
Qed.

Lemma period_le_trans (a b c : classItem) :
  period_le a b -> period_le b c -> period_le a c.
Proof.
  intros (x & y & Ha & Hb & Hxy) (y' & z & Hb' & Hc & Hyz).
  rewrite Hb in Hb'; injection Hb' as <-.
  exists x, z; repeat split; trivial; lia.
Qed.

Lemma insert_item_sorted (x : classItem) (l : list classItem) :
  integer_period x -> Forall integer_period l ->
  StronglySorted period_le l -> StronglySorted period_le (insert_item x l).
Proof.
  intros Hx Hl Hs; induction Hs as [|y l Hs IH Hy]; simpl.
  - repeat constructor.
  - inversion Hl as [|? ? Hpy Hl']; subst.
    destruct (after x y) eqn:E.
    + constructor; [now apply IH|].
      apply (Permutation_Forall (insert_item_perm x l)).
      constructor; [now apply after_true_le | assumption].
    + pose proof (after_false_le x y Hx Hpy E) as Hxy.
      constructor; [now constructor|].
      constructor; [assumption|].
      eapply Forall_impl; [|exact Hy].
      intros c Hc; eapply period_le_trans; eassumption.
Qed.

Lemma sort_items_sorted (l : list classItem) :
  Forall integer_period l -> StronglySorted period_le (sort_items l).
Proof.
  induction l as [|x l IH]; simpl; intros H; [constructor|].
  inversion H as [|? ? Hx Hl]; subst.
  apply insert_item_sorted; trivial; [|now apply IH].
  apply (Permutation_Forall (sort_items_perm l)); assumption.
Qed.

Lemma after_period_is (p : option Z) (x y : classItem) :
  integer_period x -> integer_period y ->
  after x y = true -> period_is p x = true -> period_is p y = false.
Proof.
  intros (a & Hx & Ha) (b & Hy & Hb).
  rewrite (after_integer x y a b Hx Hy Ha Hb).
  unfold period_is. rewrite Hx, Hy. destruct p as [c|]; trivial.
  intros H1 H2. apply Z.ltb_lt in H1. apply Z.eqb_eq in H2.
  apply Z.eqb_neq. lia.
Qed.

Lemma insert_item_filter (p : option Z) (x : classItem) (l : list classItem) :
  integer_period x -> Forall integer_period l ->
  filter (period_is p) (insert_item x l) = filter (period_is p) (x :: l).
Proof.
  intros Hx Hl; induction Hl as [|y l Hy Hl IH]; [reflexivity|].
  simpl insert_item. destruct (after x y) eqn:E; [|reflexivity].
  simpl in *. rewrite IH.
  destruct (period_is p x) eqn:Ex; [|reflexivity].
  now rewrite (after_period_is p x y Hx Hy E Ex).
Qed.

Lemma sort_items_filter (p : option Z) (l : list classItem) :
  Forall integer_period l ->
  filter (period_is p) (sort_items l) = filter (period_is p) l.
Proof.
  induction l as [|x l IH]; intros H; [reflexivity|].
  inversion H as [|? ? Hx Hl]; subst.
  simpl sort_items. rewrite insert_item_filter; trivial.
  - simpl. now rewrite IH.
  - apply (Permutation_Forall (sort_items_perm l)); assumption.
Qed.

(** The integers kept apart behave as the doubles they stand for: on
    sample pairs, up to the bound, the difference is the difference of the
    doubles. *)
Example minus_is_the_double_difference :
  forallb (fun xy =>
             PrimFloat.eqb
               (Number.to_double
                  (Number.minus (Number.of_integer (fst xy))
                     (Number.of_integer (snd xy))))
               (Number.of_Z (fst xy) - Number.of_Z (snd xy)))
    [ (3, 1); (1, 3); (0, 0); (-7, 12); (2 ^ 53, 1); (2 ^ 53, - 2 ^ 53);
      (- 2 ^ 53, 2 ^ 53 - 1); (2 ^ 52 + 1, - 2 ^ 52 - 1); (2 ^ 53 + 1, 2 ^ 53);
      (2 ^ 60, 2 ^ 60 + 1); (10 ^ 21, 1) ]
  = true.
Proof. vm_compute. reflexivity. Qed.

(** Beyond the bound the model follows the doubles: [2^53 + 1] parses
    to [2^53], so two entries with these periods compare equal, and
    [10^21] is printed by the engine's number conversion, not digit by
    digit. *)
Example beyond_the_safe_integers :
  let a := {| period := Some (2 ^ 53 + 1); className := None; teacher := None;
              roomNumber := None; subjectArea := None |} in
  let b := {| period := Some (2 ^ 53); className := None; teacher := None;
              roomNumber := None; subjectArea := None |} in
  after a b = false /\ after b a = false /\
  period_text (Some (10 ^ 21)) = [NumberText 1e21].
Proof. repeat split; vm_compute; reflexivity. Qed.

Lemma period_is_refl (c : classItem) : period_is (period c) c = true.
Proof.
  unfold period_is. destruct (period c); [apply Z.eqb_refl|reflexivity].
Qed.

Lemma filter_period_In (c : classItem) (s1 s2 : list classItem) :
  (forall p, filter (period_is p) s1 = filter (period_is p) s2) ->
  In c s1 -> In c s2.
Proof.
  intros H Hc.
  assert (Hf : In c (filter (period_is (period c)) s1))
    by (apply filter_In; split; [assumption|apply period_is_refl]).
  rewrite H in Hf. now apply filter_In in Hf.
Qed.

Lemma period_is_same (p : option Z) (x y : classItem) :
  period x = period y -> period_is p x = period_is p y.
Proof. unfold period_is; now intros ->. Qed.

(** The sorted order with ties in resource order is unique: two lists
    sorted by period in which the entries of every period come in the
    same order are the same list.  So on entries with numeric periods any
    stable sort returns what the insertion sort returns. *)
Lemma stable_sorted_unique (s1 s2 : list classItem) :
  Forall has_period s1 ->
  StronglySorted period_le s1 -> StronglySorted period_le s2 ->
  (forall p, filter (period_is p) s1 = filter (period_is p) s2) ->
  s1 = s2.
Proof.
  revert s2; induction s1 as [|x s1 IH]; intros s2 Hp H1 H2 Hf.
  - destruct s2 as [|y s2]; [reflexivity|].
    specialize (Hf (period y)). simpl in Hf.
    rewrite period_is_refl in Hf. discriminate.
  - destruct s2 as [|y s2].
    { specialize (Hf (period x)). simpl in Hf.
      rewrite period_is_refl in Hf. discriminate. }
    inversion Hp as [|? ? Hx Hp']; subst.
    inversion H1 as [|? ? H1' Hx1]; subst.
    inversion H2 as [|? ? H2' Hy2]; subst.
    assert (Hxy : period x = period y).
    { assert (Hy : In y (x :: s1))
        by (apply (filter_period_In y (y :: s2)); [now symmetry|now left]).
      assert (Hx' : In x (y :: s2))
        by (apply (filter_period_In x (x :: s1)); [assumption|now left]).
      destruct Hy as [->|Hy]; [reflexivity|].
      destruct Hx' as [->|Hx']; [reflexivity|].
      rewrite Forall_forall in Hx1, Hy2.
      destruct (Hx1 y Hy) as (a & b & Ha & Hb & Hab).
      destruct (Hy2 x Hx') as (b' & a' & Hb' & Ha' & Hba).
      rewrite Ha in Ha'; injection Ha' as <-.
      rewrite Hb in Hb'; injection Hb' as <-.
      rewrite Ha, Hb. f_equal. lia. }
    assert (Heq : x = y).
    { specialize (Hf (period x)). simpl in Hf.
      rewrite (period_is_same (period x) y x) in Hf by now symmetry.
      rewrite period_is_refl in Hf. now injection Hf. }
    subst y. f_equal. apply IH; trivial.
    intros p. specialize (Hf p). simpl in Hf.
    destruct (period_is p x); [now injection Hf|assumption].
Qed.

Lemma sort_items_unique (l s : list classItem) :
  Forall integer_period l ->
  StronglySorted period_le s ->
  (forall p, filter (period_is p) s = filter (period_is p) l) ->
  s = sort_items l.
Proof.
  intros Hp Hs Hf. symmetry. apply stable_sorted_unique.
  - apply (Permutation_Forall (sort_items_perm l)).
    eapply Forall_impl; [|exact Hp]. apply integer_has_period.
  - now apply sort_items_sorted.
  - assumption.
  - intros p. rewrite sort_items_filter by assumption. now symmetry.
Qed.


(** * Properties of the loader *)

Lemma insert_perm (x : element) (l s : list element) :
  insert x l = Ok s -> Permutation (x :: l) s.
Proof.
  revert s; induction l as [|y l IH]; cbn [insert]; intros s H.
  - injection H as <-. reflexivity.
  - destruct (SortCompare x y) as [v|e]; cbn [bind] in H; [|discriminate].
    destruct (Number.positive v).
    + destruct (insert x l) as [r|e]; cbn [bind] in H; [|discriminate].
      injection H as <-.
      etransitivity; [apply perm_swap|]. apply perm_skip. now apply IH.
    + injection H as <-. reflexivity.
Qed.

(** When the sort returns, it returns a permutation. *)
Lemma sort_perm (l s : list element) : sort l = Ok s -> Permutation l s.
Proof.
  revert s; induction l as [|x l IH]; cbn [sort]; intros s H.
  - injection H as <-. constructor.
  - destruct (sort l) as [r|e]; cbn [bind] in H; [|discriminate].
    etransitivity; [apply perm_skip, (IH r eq_refl)|]. now apply insert_perm.
Qed.

Lemma sort_length (l s : list element) :
  sort l = Ok s -> List.length s = List.length l.
Proof.
  intros H. symmetry. apply Permutation_length. now apply sort_perm.
Qed.

Lemma sort_singleton (x : element) : sort [x] = Ok [x].
Proof. reflexivity. Qed.

Lemma SortCompare_Null_l (y : element) :
  exists e, SortCompare Null y = Throw e.
Proof. unfold SortCompare, comparefn; simpl; eauto. Qed.

Lemma SortCompare_Null_r (x : element) :
  exists e, SortCompare x Null = Throw e.
Proof. unfold SortCompare, comparefn; destruct x; simpl; eauto. Qed.

(** With two elements or more, a [null] among them reaches the comparison
    function, which throws. *)
Lemma sort_Null (l : list element) :
  In Null l -> (2 <= List.length l)%nat -> exists e, sort l = Throw e.
Proof.
  induction l as [|x l IH]; [contradiction|].
  intros Hin Hlen. cbn [sort].
  destruct (sort l) as [s|e] eqn:Hs; cbn [bind]; [|eauto].
  destruct s as [|y s].
  { apply sort_length in Hs. simpl in *. lia. }
  cbn [insert].
  destruct Hin as [->|Hin].
  - destruct (SortCompare_Null_l y) as (e & ->); simpl; eauto.
  - destruct l as [|z [|z' l]]; [contradiction| |].
    + destruct Hin as [->|[]]. rewrite sort_singleton in Hs.
      injection Hs as <- <-.
      destruct (SortCompare_Null_r x) as (e & ->); simpl; eauto.
    + destruct (IH Hin) as (e & He); [simpl; lia|]. congruence.
Qed.

(** What the sort throws is a [TypeError] of the engine. *)
Lemma SortCompare_Throw (x y : element) (e : error) :
  SortCompare x y = Throw e -> exists diag, e = TypeError diag.
Proof.
  unfold SortCompare, comparefn.
  destruct x as [|c|c [| | | |]], y as [|c'|c' [| | | |]]; simpl;
    intros H; try discriminate; injection H as <-; eauto.
Qed.

Lemma insert_Throw (x : element) (l : list element) (e : error) :
  insert x l = Throw e -> exists diag, e = TypeError diag.
Proof.
  induction l as [|y l IH]; cbn [insert]; [discriminate|].
  destruct (SortCompare x y) as [c|e'] eqn:Hc; cbn [bind].
  - destruct (Number.positive c); [|discriminate].
    destruct (insert x l) as [r|e'']; cbn [bind]; [discriminate|].
    intros H; injection H as <-. now apply IH.
  - intros H; injection H as <-. now apply (SortCompare_Throw x y).
Qed.

Lemma sort_Throw (l : list element) (e : error) :
  sort l = Throw e -> exists diag, e = TypeError diag.
Proof.
  induction l as [|x l IH]; cbn [sort]; [discriminate|].
  destruct (sort l) as [s|e']; cbn [bind].
  - apply insert_Throw.
  - intros H; injection H as <-. now apply IH.
Qed.

Lemma failed_after_nil (e : error) (d : dom) : failed_after [] e d = failed e d.
Proof. unfold failed_after, failed. now rewrite app_nil_r. Qed.

Section LoaderFacts.

Variable scheduleNames : list (string * value).
Variable cardHTML : element -> nat -> result card.

Let callback : element -> nat -> js unit := render cardHTML.

(** The loop, on any array and any page: the cards of the elements up
    to the first whose card cannot be built are appended, and the loop
    ends there with the error, or at the end of the array. *)
Lemma forEach_rendered (l : list element) (index : nat) (d : dom) :
  forEach callback l index d
  = (match snd (rendered cardHTML l index) with
     | None => Ok tt
     | Some e => Throw e
     end,
     set_scheduleContainer
       (scheduleContainer d ++ fst (rendered cardHTML l index)) d).
Proof.
  revert index d; induction l as [|x l IH]; intros index d.
  - destruct d; simpl. unfold ret, set_scheduleContainer; simpl.
    now rewrite app_nil_r.
  - cbn [forEach rendered]. unfold seq_js at 1.
    unfold callback at 1, render. unfold seq_js at 1, lift, modify.
    destruct (cardHTML x index) as [k|e].
    + fold callback. rewrite IH.
      destruct (rendered cardHTML l (S index)) as [ks r]. cbn [fst snd].
      unfold insertAdjacentHTML, set_scheduleContainer; simpl.
      now rewrite <- app_assoc.
    + destruct d; simpl. unfold set_scheduleContainer; simpl.
      now rewrite app_nil_r.
Qed.

(** A settled request with an ok status and an array for a body: the
    sort, then the loop. *)
Lemma settle_array (fileName : value) (status : Z) (l : list element) (d : dom) :
  ok status = true ->
  loadSchedule_settle scheduleNames cardHTML fileName
    (Response status (Parsed (JArray l))) d
  = (Ok tt,
     match sort l with
     | Throw e => failed e d
     | Ok sorted =>
         match snd (rendered cardHTML sorted 0) with
         | None =>
             loaded (label scheduleNames fileName)
               (fst (rendered cardHTML sorted 0)) d
         | Some e => failed_after (fst (rendered cardHTML sorted 0)) e d
         end
     end).
Proof.
  intros Hok. unfold loadSchedule_settle, try_catch, loadSchedule_try.
  rewrite Hok. cbn [sort_document].
  destruct (sort l) as [sorted|e]; [|reflexivity].
  unfold seq_js, ret, lift, modify. fold callback.
  rewrite forEach_rendered.
  destruct (snd (rendered cardHTML sorted 0)); reflexivity.
Qed.

Lemma settle_Rejected (fileName : value) (e : error) (d : dom) :
  loadSchedule_settle scheduleNames cardHTML fileName (Rejected e) d
  = (Ok tt, failed e d).
Proof. reflexivity. Qed.

Lemma settle_not_ok (fileName : value) (status : Z) (b : body) (d : dom) :
  ok status = false ->
  loadSchedule_settle scheduleNames cardHTML fileName (Response status b) d
  = (Ok tt,
     failed {| message := str ("Failed to load schedule: " ++ decimal status) |} d).
Proof.
  intros Hok. unfold loadSchedule_settle, try_catch, loadSchedule_try.
  rewrite Hok. reflexivity.
Qed.

Lemma settle_Malformed (fileName : value) (status : Z) (e : error) (d : dom) :
  ok status = true ->
  loadSchedule_settle scheduleNames cardHTML fileName
    (Response status (Malformed e)) d
  = (Ok tt, failed e d).
Proof.
  intros Hok. unfold loadSchedule_settle, try_catch, loadSchedule_try.
  rewrite Hok. reflexivity.
Qed.

Lemma settle_JNull (fileName : value) (status : Z) (d : dom) :
  ok status = true ->
  loadSchedule_settle scheduleNames cardHTML fileName
    (Response status (Parsed JNull)) d
  = (Ok tt, failed (TypeError (PropertyOfNull "sort")) d).
Proof.
  intros Hok. unfold loadSchedule_settle, try_catch, loadSchedule_try.
  rewrite Hok. reflexivity.
Qed.

Lemma settle_JOther (fileName : value) (status : Z) (d : dom) :
  ok status = true ->
  loadSchedule_settle scheduleNames cardHTML fileName
    (Response status (Parsed JOther)) d
  = (Ok tt, failed (TypeError (NotAFunction "scheduleData.sort")) d).
Proof.
  intros Hok. unfold loadSchedule_settle, try_catch, loadSchedule_try.
  rewrite Hok. reflexivity.
Qed.

(** What a settled request does is fixed by the file name and the
    outcome: on every page it appends the same cards, and either clears
    the status or shows the same error. *)
Lemma settle_uniform (fileName : value) (o : outcome) :
  exists cards r,
    forall d,
      loadSchedule_settle scheduleNames cardHTML fileName o d
      = (Ok tt,
         match r with
         | None => loaded (label scheduleNames fileName) cards d
         | Some e => failed_after cards e d
         end).
Proof.
  destruct o as [e|status b].
  { exists [], (Some e); intros d.
    now rewrite failed_after_nil, settle_Rejected. }
  destruct (ok status) eqn:Hok.
  2:{ eexists [], (Some _); intros d.
      now rewrite failed_after_nil, settle_not_ok. }
  destruct b as [e|[| |l]].
  - exists [], (Some e); intros d.
    now rewrite failed_after_nil, settle_Malformed.
  - eexists [], (Some _); intros d.
    now rewrite failed_after_nil, settle_JNull.
  - eexists [], (Some _); intros d.
    now rewrite failed_after_nil, settle_JOther.
  - destruct (sort l) as [sorted|e] eqn:Hs.
    + exists (fst (rendered cardHTML sorted 0)),
             (snd (rendered cardHTML sorted 0)); intros d.
      rewrite settle_array by assumption. rewrite Hs.
      destruct (snd (rendered cardHTML sorted 0)); reflexivity.
    + exists [], (Some e); intros d.
      rewrite settle_array by assumption. rewrite Hs.
      now rewrite failed_after_nil.
Qed.

Lemma begin_begun (d : dom) : loadSchedule_begin d = (Ok tt, begun d).
Proof. reflexivity. Qed.

Lemma loadSchedule_unfold (fileName : value) (o : outcome) (d : dom) :
  loadSchedule scheduleNames cardHTML fileName o d
  = loadSchedule_settle scheduleNames cardHTML fileName o (begun d).
Proof. reflexivity. Qed.

(** ** Arrays of entries *)

Hypothesis cardHTML_Item :
  forall c index, exists k, cardHTML (Item c) index = Ok k /\ shows c k.

Lemma cards_from_shows (l : list classItem) (index : nat) :
  Forall2 shows l (cards_from cardHTML l index).
Proof.
  revert index; induction l as [|c l IH]; intros index; simpl.
  - constructor.
  - destruct (cardHTML_Item c index) as (k & -> & Hk). now constructor.
Qed.

Lemma rendered_Items (l : list classItem) (index : nat) :
  rendered cardHTML (map Item l) index = (cards_from cardHTML l index, None).
Proof.
  revert index; induction l as [|c l IH]; intros index; [reflexivity|].
  cbn [map rendered cards_from].
  destruct (cardHTML_Item c index) as (k & -> & _). now rewrite IH.
Qed.

(** A request that succeeds with an array of entries renders them all. *)
Lemma settle_Items (fileName : value) (status : Z) (l : list classItem) (d : dom) :
  ok status = true ->
  loadSchedule_settle scheduleNames cardHTML fileName
    (Response status (Parsed (JArray (map Item l)))) d
  = (Ok tt, loaded (label scheduleNames fileName) (cards_from cardHTML (sort_items l) 0) d).
Proof.
  intros Hok. rewrite settle_array by assumption.
  now rewrite sort_Item, rendered_Items.
Qed.

End LoaderFacts.

(** The two card templates build a card for every entry, whatever its
    fields, and throw on [null] and on a field that has no primitive
    value. *)
Lemma Current_cardHTML_Item (c : classItem) (index : nat) :
  exists k, Current.cardHTML (Item c) index = Ok k /\ shows c k.
Proof. eexists; split; [reflexivity|]. repeat split. Qed.

Lemma Current_cardHTML_Null (index : nat) :
  exists e, Current.cardHTML Null index = Throw e.
Proof. eexists; reflexivity. Qed.

Lemma Earlier_cardHTML_Item (c : classItem) (index : nat) :
  exists k, Earlier.cardHTML (Item c) index = Ok k /\ shows c k.
Proof. eexists; split; [reflexivity|]. repeat split. Qed.

Lemma Earlier_cardHTML_Null (index : nat) :
  exists e, Earlier.cardHTML Null index = Throw e.
Proof. eexists; reflexivity. Qed.

(** * The two versions at once *)

Lemma cardHTML_of_Item (v : version) (c : classItem) (index : nat) :
  exists k, cardHTML_of v (Item c) index = Ok k /\ shows c k.
Proof.
  destruct v; [apply Current_cardHTML_Item | apply Earlier_cardHTML_Item].
Qed.

Lemma cardHTML_of_Null (v : version) (index : nat) :
  exists e, cardHTML_of v Null index = Throw e.
Proof.
  destruct v; [apply Current_cardHTML_Null | apply Earlier_cardHTML_Null].
Qed.

Lemma settle_of_Items (v : version) (fileName : value) (status : Z)
    (l : list classItem) (d : dom) :
  ok status = true ->
  settle_of v fileName (Response status (Parsed (JArray (map Item l)))) d
  = (Ok tt, loaded (label (scheduleNames_of v) fileName)
              (cards_of v (sort_items l)) d).
Proof.
  apply settle_Items, cardHTML_of_Item.
Qed.

Lemma cards_of_shows (v : version) (l : list classItem) :
  Forall2 shows l (cards_of v l).
Proof. apply cards_from_shows, cardHTML_of_Item. Qed.

Lemma shows_carries (c : classItem) (k : card) : shows c k -> carries c k.
Proof.
  intros (H1 & H2 & H3 & H4 & H5). unfold carries.
  rewrite H1, H2, H3, H4, H5. repeat split.
  - intros z -> Hz. cbn [period_text]. unfold Number.of_integer.
    now rewrite safe_small.
  - now intros s ->.
  - now intros s ->.
  - intros z -> Hz. cbn [room_text]. unfold Number.of_integer.
    now rewrite safe_small.
  - now intros s ->.
  - now intros s ->.
Qed.

Lemma cards_of_carries (v : version) (l : list classItem) :
  Forall2 carries l (cards_of v l).
Proof.
  eapply Forall2_impl; [|apply cards_of_shows]. apply shows_carries.
Qed.

(** The numbers shown in the period badges of the cards of sorted
    entries. *)
Lemma badges_sorted (sorted : list classItem) (cards : list card) :
  Forall2 carries sorted cards ->
  Forall integer_period sorted ->
  StronglySorted period_le sorted ->
  exists ps,
    map period_badge cards = map (fun z => [Chars (decimal z)]) ps /\
    map period sorted = map Some ps /\
    StronglySorted Z.le ps.
Proof.
  induction 1 as [|c k sorted cards Hk HF IH]; intros Hp Hs.
  - exists []. repeat split; constructor.
  - inversion Hp as [|? ? Hc Hp']; subst.
    inversion Hs as [|? ? Hs' Hall]; subst.
    destruct (IH Hp' Hs') as (ps & Hb & Hps & Hsorted).
    destruct Hc as (z & Hz & Hsmall).
    exists (z :: ps). destruct Hk as (Hbadge & _).
    simpl. rewrite (Hbadge z Hz) by lia. rewrite Hz, Hb, Hps. repeat split.
    constructor; [assumption|].
    clear - Hall Hps Hz. revert ps Hps.
    induction Hall as [|c' sorted' (x & y & Hx & Hy & Hxy) Hall IH];
      intros [|p ps] Hps; try discriminate; constructor.
    + simpl in Hps. injection Hps as Hp _. rewrite Hz in Hx. congruence.
    + simpl in Hps. injection Hps as _ Hps. now apply IH.
Qed.

(** * The claims *)

(** C1.  When the request succeeds and the body parses to a list of
    entries, each with an integer period, [loadSchedule] renders one card
    per entry; the cards are those of a permutation of the entries, each
    card carries the fields of its entry unchanged, and the periods shown
    by the cards, read in order, are non-decreasing.  A settled call
    appends these cards to the container; a call nothing else interleaves
    with leaves exactly them. *)
Theorem loadSchedule_renders_sorted (v : version) (fileName : value)
    (status : Z) (l : list classItem) (d : dom) :
  ok status = true ->
  Forall integer_period l ->
  let o := Response status (Parsed (JArray (map Item l))) in
  exists sorted cards ps,
    scheduleContainer (snd (loadSchedule_of v fileName o d)) = cards /\
    scheduleContainer (snd (settle_of v fileName o d))
    = scheduleContainer d ++ cards /\
    Permutation l sorted /\
    Forall2 carries sorted cards /\
    map period_badge cards = map (fun z => [Chars (decimal z)]) ps /\
    map period sorted = map Some ps /\
    StronglySorted Z.le ps.
Proof.
  intros Hok Hp o.
  pose proof (sort_items_perm l) as Hperm.
  pose proof (cards_of_carries v (sort_items l)) as Hcarries.
  destruct (badges_sorted _ _ Hcarries) as (ps & Hb & Hps & Hsorted).
  { apply (Permutation_Forall Hperm Hp). }
  { now apply sort_items_sorted. }
  exists (sort_items l), (cards_of v (sort_items l)), ps.
  unfold loadSchedule_of. rewrite loadSchedule_unfold.
  fold (settle_of v). subst o. rewrite !settle_of_Items by assumption.
  repeat split; trivial.
Qed.

Lemma loadSchedule_renders_sorted_witness :
  ok 200 = true /\
  Forall integer_period example_entries /\
  (exists sorted cards ps,
     scheduleContainer
       (snd (loadSchedule_of current (VString (str "SathvikSchedule.json"))
               (Response 200 (Parsed (JArray (map Item example_entries))))
               blank_page)) = cards /\
     scheduleContainer
       (snd (settle_of current (VString (str "SathvikSchedule.json"))
               (Response 200 (Parsed (JArray (map Item example_entries))))
               blank_page)) = scheduleContainer blank_page ++ cards /\
     Permutation example_entries sorted /\
     Forall2 carries sorted cards /\
     map period_badge cards = map (fun z => [Chars (decimal z)]) ps /\
     map period sorted = map Some ps /\
     StronglySorted Z.le ps) /\
  map (fun k => (period_badge k, class_name k, teacher_info k, room_info k,
                 subject_badge k))
    (scheduleContainer
       (snd (loadSchedule_of current (VString (str "SathvikSchedule.json"))
               (Response 200 (Parsed (JArray (map Item example_entries))))
               blank_page)))
  = [ ([Chars "1"], [Chars "Algebra II"], [Chars "Mr. Diaz"], [Chars "104"],
       [Chars "Math"]);
      ([Chars "2"], [Chars "World History"], [Chars "Ms. Park"], [Chars "118"],
       [Chars "Social Studies"]);
      ([Chars "3"], [Chars "Biology"], [Chars "Ms. Cole"], [Chars "210"],
       [Chars "Science"]) ].
Proof.
  assert (H : Forall integer_period example_entries).
  { repeat constructor; eexists; (split; [reflexivity|]); simpl; lia. }
  split; [reflexivity|]. split; [exact H|].
  split; [|vm_compute; reflexivity].
  exact (loadSchedule_renders_sorted current
           (VString (str "SathvikSchedule.json")) 200 example_entries
           blank_page eq_refl H).
Defined.

(** The example of C1 run: periods 3, 1, 2 come out as 1, 2, 3, each card
    with the fields of its entry. *)
Example example_entries_rendered :
  map (fun k => (period_badge k, class_name k, teacher_info k, room_info k,
                 subject_badge k))
    (scheduleContainer
       (snd (loadSchedule_of current (VString (str "SathvikSchedule.json"))
               (Response 200 (Parsed (JArray (map Item example_entries))))
               blank_page)))
  = [ (str "1", str "Algebra II", str "Mr. Diaz", str "104", str "Math");
      (str "2", str "World History", str "Ms. Park", str "118",
       str "Social Studies");
      (str "3", str "Biology", str "Ms. Cole", str "210", str "Science") ].
Proof. vm_compute. reflexivity. Qed.

(** C2.  The sort of [loadSchedule] is stable: on a list of entries
    with integer periods, the rendered cards are those of a list in which,
    for every period value, the entries of that period stand in the order
    they have in the resource. *)
Theorem loadSchedule_sort_stable (v : version) (fileName : value)
    (status : Z) (l : list classItem) (d : dom) :
  ok status = true ->
  Forall integer_period l ->
  let o := Response status (Parsed (JArray (map Item l))) in
  exists sorted cards,
    scheduleContainer (snd (loadSchedule_of v fileName o d)) = cards /\
    Forall2 carries sorted cards /\
    Permutation l sorted /\
    StronglySorted period_le sorted /\
    forall p, filter (period_is p) sorted = filter (period_is p) l.
Proof.
  intros Hok Hp o.
  exists (sort_items l), (cards_of v (sort_items l)).
  unfold loadSchedule_of. rewrite loadSchedule_unfold.
  fold (settle_of v). subst o. rewrite settle_of_Items by assumption.
  repeat split.
  - apply cards_of_carries.
  - apply sort_items_perm.
  - now apply sort_items_sorted.
  - intros p; now apply sort_items_filter.
Qed.

Lemma loadSchedule_sort_stable_witness :
  ok 200 = true /\
  Forall integer_period tie_entries /\
  (exists sorted cards,
     scheduleContainer
       (snd (loadSchedule_of current (VString (str "HankSchedule.json"))
               (Response 200 (Parsed (JArray (map Item tie_entries))))
               blank_page)) = cards /\
     Forall2 carries sorted cards /\
     Permutation tie_entries sorted /\
     StronglySorted period_le sorted /\
     forall p, filter (period_is p) sorted = filter (period_is p) tie_entries) /\
  map (fun k => (period_badge k, class_name k))
    (scheduleContainer
       (snd (loadSchedule_of current (VString (str "HankSchedule.json"))
               (Response 200 (Parsed (JArray (map Item tie_entries))))
               blank_page)))
  = [ ([Chars "1"], [Chars "English 10"]);
      ([Chars "2"], [Chars "Chemistry"]);
      ([Chars "2"], [Chars "Robotics"]) ].
Proof.
  assert (H : Forall integer_period tie_entries).
  { repeat constructor; eexists; (split; [reflexivity|]); simpl; lia. }
  split; [reflexivity|]. split; [exact H|].
  split; [|vm_compute; reflexivity].
  exact (loadSchedule_sort_stable current (VString (str "HankSchedule.json"))
           200 tie_entries blank_page eq_refl H).
Defined.

Example tie_entries_rendered :
  map (fun k => (period_badge k, class_name k))
    (scheduleContainer
       (snd (loadSchedule_of current (VString (str "HankSchedule.json"))
               (Response 200 (Parsed (JArray (map Item tie_entries))))
               blank_page)))
  = [ (str "1", str "English 10");
      (str "2", str "Chemistry");
      (str "2", str "Robotics") ].
Proof. vm_compute. reflexivity. Qed.

Lemma occurs_decimal (prefix : string) (z : Z) (before after : text) :
  occurs (decimal z) (before ++ str (prefix ++ decimal z) ++ after).
Proof.
  exists (prefix ++ decimal z)%string, prefix, EmptyString. split.
  - apply in_or_app; right; now left.
  - clear. induction prefix as [|a prefix IH]; simpl.
    + induction (decimal z) as [|b s IHs]; simpl; congruence.
    + congruence.
Qed.

(** C3.  A load whose response has a non-success status, or whose body
    fails to parse, ends in the error state: the status region shows the
    generic message followed by the detail of the error, the label is
    [Error loading schedule], and the load renders no entry (it adds no
    card when it settles, and a call nothing interleaves with leaves the
    container empty).  For a non-success status the detail contains the
    status code; for status 404 the shown text contains [404]. *)
Theorem loadSchedule_error_state (v : version) (fileName : value)
    (status : Z) (b : body) (d : dom) :
  (ok status = false \/ exists e, b = Malformed e) ->
  let o := Response status b in
  let d' := snd (loadSchedule_of v fileName o d) in
  (exists e,
     statusDiv d' = Alert (message e) /\
     status_text (statusDiv d') = alert_heading ++ message e /\
     console d' = console d ++ [e] /\
     (ok status = false ->
      message e = str ("Failed to load schedule: " ++ decimal status)) /\
     (ok status = true -> b = Malformed e)) /\
  currentScheduleDisplay d' = str "Error loading schedule" /\
  scheduleContainer d' = [] /\
  scheduleContainer (snd (settle_of v fileName o d)) = scheduleContainer d /\
  (ok status = false -> occurs (decimal status) (status_text (statusDiv d'))) /\
  (status = 404 -> occurs "404" (status_text (statusDiv d'))).
Proof.
  intros H o d'.
  assert (Hcases :
    exists e,
      (forall d0, settle_of v fileName o d0 = (Ok tt, failed e d0)) /\
      (ok status = false ->
       message e = str ("Failed to load schedule: " ++ decimal status)) /\
      (ok status = true -> b = Malformed e)).
  { destruct (ok status) eqn:Hok.
    - destruct H as [H|(e & ->)]; [discriminate|].
      exists e. repeat split; try discriminate.
      intros d0. now apply settle_Malformed.
    - exists {| message := str ("Failed to load schedule: " ++ decimal status) |}.
      split; [|split; [reflexivity|discriminate]].
      intros d0. unfold o. now apply settle_not_ok. }
  destruct Hcases as (e & Hrun & Hmsg & Hbody).
  assert (Hd' : d' = failed e (begun d)).
  { unfold d', loadSchedule_of. rewrite loadSchedule_unfold.
    fold (settle_of v). now rewrite Hrun. }
  rewrite Hrun, Hd'. simpl.
  repeat split; trivial.
  - exists e. repeat split; trivial.
  - intros Hok. rewrite (Hmsg Hok).
    apply (occurs_decimal "Failed to load schedule: " status alert_heading []).
  - intros ->. rewrite (Hmsg eq_refl).
    apply (occurs_decimal "Failed to load schedule: " 404 alert_heading []).
Qed.

Lemma loadSchedule_error_state_witness :
  (ok 404 = false \/ exists e, Parsed JOther = Malformed e) /\
  occurs "404"
    (status_text
       (statusDiv
          (snd (loadSchedule_of current (VString (str "EthanSchedule.json"))
                  (Response 404 (Parsed JOther)) blank_page)))).
Proof.
  assert (H : ok 404 = false \/ exists e, Parsed JOther = Malformed e)
    by (left; reflexivity).
  split; [exact H|].
  exact (proj2 (proj2 (proj2 (proj2 (proj2
           (loadSchedule_error_state current
              (VString (str "EthanSchedule.json")) 404 (Parsed JOther)
              blank_page H))))) eq_refl).
Defined.




Lemma settle_of_array (v : version) (fileName : value) (status : Z)
    (l : list element) (d : dom) :
  ok status = true ->
  settle_of v fileName (Response status (Parsed (JArray l))) d
  = (Ok tt,
     match sort l with
     | Throw e => failed e d
     | Ok sorted =>
         match snd (rendered (cardHTML_of v) sorted 0) with
         | None =>
             loaded (label (scheduleNames_of v) fileName)
               (fst (rendered (cardHTML_of v) sorted 0)) d
         | Some e => failed_after (fst (rendered (cardHTML_of v) sorted 0)) e d
         end
     end).
Proof. apply settle_array. Qed.


(** An array whose second entry, by period, holds an object without
    primitive value as its class name: the card of the first entry is
    appended before the callback throws on the second, and stays under
    the alert. *)
Example unconvertible_field_leaves_cards :
  let d := snd (loadSchedule_of current (VString (str "HankSchedule.json"))
                  (Response 200
                     (Parsed (JArray
                        [ Unconvertible
                            (entry 2 "World History" "Ms. Park" 118 "Social Studies")
                            f_className;
                          Item (entry 1 "Algebra II" "Mr. Diaz" 104 "Math") ])))
                  blank_page) in
  statusDiv d = Alert [EngineText NotPrimitive] /\
  map class_name (scheduleContainer d) = [[Chars "Algebra II"]].
Proof. split; vm_compute; reflexivity. Qed.

(** The same overlap with a second request that fails: the alert is shown
    over the cards of the first load, which the failed one neither added
    nor removed. *)
Example failed_load_over_cards :
  let d := page (steps_of current start
                   [ KeyDown "1";
                     KeyDown "2";
                     Settle 0 (Response 200
                                 (Parsed (JArray (map Item example_entries))));
                     Settle 0 (Response 404 (Parsed JOther)) ]) in
  statusDiv d = Alert (str "Failed to load schedule: 404") /\
  currentScheduleDisplay d = str "Error loading schedule" /\
  scheduleContainer d = cards_of current (sort_items example_entries).
Proof. repeat split; vm_compute; reflexivity. Qed.

(** * The handlers *)

Lemma own_scheduleFiles (v : version) (k : string) (x : value) :
  own_property (scheduleFiles_of v) k = Some x ->
  In k ["1"; "2"; "3"; "4"] /\
  exists r, x = VString (str r) /\ r <> EmptyString /\
            In (k, x) (scheduleFiles_of v).
Proof.
  destruct v;
    cbv [scheduleFiles_of Current.scheduleFiles Earlier.scheduleFiles object
         map own_property fst snd];
    repeat (match goal with
            | |- context [String.eqb ?a k] =>
                destruct (String.eqb_spec a k) as [<-|_]
            end;
            [ intros H; injection H as <-; split; [simpl; tauto|];
              eexists; split; [reflexivity|]; split; [discriminate|];
              simpl; tauto | ]);
    discriminate.
Qed.

Lemma get_unmapped (v : version) (k : string) :
  ~ In k ["1"; "2"; "3"; "4"] -> inherited k = false ->
  get (scheduleFiles_of v) k = VUndefined.
Proof.
  intros Hk Hi. unfold get. rewrite Hi.
  destruct (own_property (scheduleFiles_of v) k) as [x|] eqn:Hx; [|reflexivity].
  apply own_scheduleFiles in Hx. tauto.
Qed.

(** A key that names nothing in [scheduleFiles], own or inherited, is
    ignored by the [keydown] listener. *)
Lemma keydown_unmapped_ignored (v : version) (s : state) (k : string) :
  ~ In k ["1"; "2"; "3"; "4"] -> inherited k = false ->
  step_of v s (KeyDown k) = s.
Proof.
  intros Hk Hi. unfold step_of, step, on_keydown.
  now rewrite (get_unmapped v k Hk Hi).
Qed.

(** A script can make an event no key press makes.  On a [keydown]
    event whose key is [constructor] the test [scheduleFiles[key]] finds
    the built-in the object inherits from [Object.prototype], and the
    listener takes it for a file name: it resets the dropdown selection,
    shows the loading indicator, empties the container and starts a load,
    whose failure then surfaces as the alert.  Nothing in the script
    dispatches such an event. *)
Remark keydown_inherited_key_loads (v : version) (s : state) :
  let s' := step_of v s (KeyDown "constructor") in
  ~ In "constructor" ["1"; "2"; "3"; "4"] /\
  pending s' = pending s ++ [VBuiltin "constructor"] /\
  statusDiv (page s') = Loading /\
  scheduleContainer (page s') = [] /\
  selected (scheduleSelect (page s')) = EmptyString /\
  s' <> s /\
  forall status b,
    ok status = false ->
    currentScheduleDisplay
      (snd (settle_of v (VBuiltin "constructor") (Response status b) (page s')))
    = str "Error loading schedule".
Proof.
  intros s'.
  assert (Hs' : s' = call_loadSchedule (VBuiltin "constructor")
                       (run (modify (set_value (VBuiltin "constructor"))) s)).
  { destruct v; reflexivity. }
  split; [simpl; intuition discriminate|].
  rewrite Hs'. simpl. repeat split.
  - intros H. apply (f_equal (fun st => List.length (pending st))) in H.
    simpl in H. rewrite length_app in H. simpl in H. lia.
  - intros status b Hok. unfold settle_of.
    now rewrite settle_not_ok by assumption.
Qed.




(** C6.  A mapped key [k] that resolves to the resource [r], and the
    choice of [r] in the dropdown, call the loader with the same file name
    and leave the same state, so whatever follows renders the same.  The
    [keydown] listener sets the dropdown to [r] first and then starts the
    load. *)
Theorem keydown_matches_change (v : version) (s : state) (k r : string) :
  own_property (scheduleFiles_of v) k = Some (VString (str r)) ->
  In r (options (scheduleSelect (page s))) ->
  let s' := step_of v s (KeyDown k) in
  s' = step_of v s (Change r) /\
  (forall evs, steps_of v s' evs = steps_of v (step_of v s (Change r)) evs) /\
  pending s' = pending s ++ [VString (str r)] /\
  selected (scheduleSelect (page s')) = r /\
  s' = call_loadSchedule (VString (str r))
         (run (modify (set_value (VString (str r)))) s) /\
  selected (scheduleSelect
              (page (run (modify (set_value (VString (str r)))) s))) = r.
Proof.
  intros Hk Hr s'.
  assert (Hsel : forall d, options (scheduleSelect d)
                           = options (scheduleSelect (page s)) ->
                 selected (scheduleSelect (set_value (VString (str r)) d)) = r).
  { intros d Hd. unfold set_value; simpl. rewrite Hd.
    destruct (in_dec string_dec r (options (scheduleSelect (page s))));
      [reflexivity|contradiction]. }
  destruct (own_scheduleFiles v k _ Hk) as (_ & r' & Hr' & Hne & _).
  injection Hr' as <-.
  assert (Hget : get (scheduleFiles_of v) k = VString (str r)).
  { unfold get. now rewrite Hk. }
  assert (Htruthy : truthy (VString (str r)) = true).
  { simpl. destruct r; [now elim Hne|reflexivity]. }
  assert (Hkey : s' = call_loadSchedule (VString (str r))
                        (run (modify (set_value (VString (str r)))) s)).
  { unfold s', step_of, step, on_keydown. now rewrite Hget, Htruthy. }
  assert (Hchange : step_of v s (Change r)
                    = call_loadSchedule (VString (str r))
                        (run (modify (set_value (VString (str r)))) s)).
  { unfold step_of, step, on_change.
    unfold run at 1 2, modify; cbn [snd page].
    now rewrite (Hsel (page s) eq_refl). }
  repeat split.
  - now rewrite Hkey, Hchange.
  - intros evs. now rewrite Hkey, Hchange.
  - rewrite Hkey. reflexivity.
  - rewrite Hkey. simpl. apply (Hsel (page s) eq_refl).
  - exact Hkey.
  - simpl. apply (Hsel (page s) eq_refl).
Qed.

Lemma keydown_matches_change_witness :
  own_property (scheduleFiles_of current) "2"
  = Some (VString (str "AadarshSchedule.json")) /\
  In "AadarshSchedule.json" (options (scheduleSelect (page start))) /\
  step_of current start (KeyDown "2")
  = step_of current start (Change "AadarshSchedule.json") /\
  selected (scheduleSelect (page (step_of current start (KeyDown "2"))))
  = "AadarshSchedule.json".
Proof.
  assert (H1 : own_property (scheduleFiles_of current) "2"
               = Some (VString (str "AadarshSchedule.json"))) by reflexivity.
  assert (H2 : In "AadarshSchedule.json" (options (scheduleSelect (page start))))
    by (simpl; tauto).
  pose proof (keydown_matches_change current start "2" "AadarshSchedule.json"
                H1 H2) as H.
  split; [exact H1|]. split; [exact H2|].
  split; [exact (proj1 H)|].
  exact (proj1 (proj2 (proj2 (proj2 H)))).
Defined.

(** * The helpers *)

(** The eight subject areas of [iconMap] get their icons. *)
Lemma getSubjectIcon_known :
  map (fun s => Current.getSubjectIcon (VString (str s)))
    [ "Math"; "Technology"; "English"; "Science"; "Health";
      "Physical Education"; "Social Studies"; "Financial Literacy" ]
  = map (fun s => VString (str s))
      [ "fa-solid fa-calculator"; "fa-solid fa-laptop-code"; "fa-solid fa-book";
        "fa-solid fa-flask"; "fa-solid fa-heart-pulse";
        "fa-solid fa-person-running"; "fa-solid fa-landmark";
        "fa-solid fa-chart-line" ].
Proof. reflexivity. Qed.

Lemma getSubjectIcon_undefined : Current.getSubjectIcon VUndefined = fallback_icon.
Proof. reflexivity. Qed.

(** A subject that names no property of [iconMap], own or inherited, gets
    the fallback. *)
Lemma getSubjectIcon_other (s : string) :
  own_property Current.iconMap s = None -> inherited s = false ->
  Current.getSubjectIcon (VString (str s)) = fallback_icon.
Proof.
  intros Hown Hin. unfold Current.getSubjectIcon, get_value.
  cbv [ToPropertyKey str]. unfold get. now rewrite Hown, Hin.
Qed.

(** Whatever the subject, the icon is neither [undefined] nor empty. *)
Lemma getSubjectIcon_truthy (subjectArea : value) :
  truthy (Current.getSubjectIcon subjectArea) = true.
Proof.
  unfold Current.getSubjectIcon, or_else.
  destruct (truthy (get_value Current.iconMap subjectArea)) eqn:E;
    [exact E | reflexivity].
Qed.

(** C10 (the code departs from it).  [iconMap] is a plain object, and
    [iconMap[subjectArea]] also finds what the object inherits from
    [Object.prototype].  For the subject area [constructor], which is none
    of the eight known ones, [getSubjectIcon] returns the inherited
    built-in function, not the fallback class and not a string, and the
    card carries the source text of that function as its icon class. *)
Theorem getSubjectIcon_inherited_subject :
  Current.getSubjectIcon (VString (str "constructor")) = VBuiltin "constructor" /\
  Current.getSubjectIcon (VString (str "constructor")) <> fallback_icon /\
  own_property Current.iconMap "constructor" = None /\
  forall c index,
    subjectArea c = Some "constructor" ->
    exists k, Current.cardHTML (Item c) index = Ok k /\
              icon k = Some [NativeCode "constructor"].
Proof.
  split; [reflexivity|]. split; [discriminate|]. split; [reflexivity|].
  intros c index Hc. eexists. split; [reflexivity|].
  simpl. now rewrite Hc.
Qed.

(** The delay of a card is computed from the index and from the period
    and the subject area of its entry, and from nothing else. *)
Lemma card_delay (c : classItem) (index : nat) :
  exists k,
    Current.cardHTML (Item c) index = Ok k /\
    animation_delay k
    = ToString (Current.calculateFibonacciDelay index
                  (period_number (period c)) (string_value (subjectArea c))).
Proof. eexists; split; reflexivity. Qed.

(** The delay on ordinary inputs: every index below 1476, every period
    from 1 to 8 and each of the nine weights, checked by evaluation. *)
Lemma delays_in_range_all : forallb delays_in_range (seq 0 1476) = true.
Proof. vm_compute. reflexivity. Qed.

(** A subject that names nothing inherited weighs one of the nine
    weights: its own, or the default. *)
Lemma subject_weight (sa : option string) :
  (forall s, sa = Some s -> inherited s = false) ->
  exists w,
    In w weights /\
    or_else (get_value Current.subjectWeights (string_value sa)) (VNumber 0.1)
    = VNumber w.
Proof.
  intros Hsa. destruct sa as [s|].
  2:{ exists 0.1%float. split; [simpl; tauto|reflexivity]. }
  specialize (Hsa s eq_refl).
  unfold get_value. cbv [string_value ToPropertyKey str]. unfold get.
  rewrite Hsa.
  cbv [Current.subjectWeights own_property].
  repeat (match goal with
          | |- context [String.eqb ?a s] => destruct (String.eqb a s)
          end;
          [ eexists; split; [|reflexivity]; simpl; tauto | ]).
  exists 0.1%float. split; [simpl; tauto|reflexivity].
Qed.

(** On those inputs the delay is a number between 0.05 and 1.05. *)
Lemma calculateFibonacciDelay_bounded (index : nat) (period : Z)
    (sa : option string) :
  (index < 1476)%nat ->
  1 <= period <= 8 ->
  (forall s, sa = Some s -> inherited s = false) ->
  exists x,
    Current.calculateFibonacciDelay index (Number.of_Z period) (string_value sa)
    = VNumber x /\
    PrimFloat.leb 0.05 x = true /\ PrimFloat.leb x 1.05 = true.
Proof.
  intros Hi Hp Hsa.
  destruct (subject_weight sa Hsa) as (w & Hw & Hweight).
  pose proof delays_in_range_all as Hall.
  rewrite forallb_forall in Hall.
  assert (Hin : In index (seq 0 1476)) by (apply in_seq; lia).
  specialize (Hall index Hin). unfold delays_in_range in Hall.
  rewrite forallb_forall in Hall.
  assert (Hperiod : In period [1; 2; 3; 4; 5; 6; 7; 8]) by (simpl; lia).
  specialize (Hall period Hperiod).
  rewrite forallb_forall in Hall. specialize (Hall w Hw).
  assert (Heq : Current.calculateFibonacciDelay index (Number.of_Z period)
                  (string_value sa)
                = delay_sum (fibValue index) (randomFactor index) period w).
  { unfold Current.calculateFibonacciDelay. rewrite Hweight. reflexivity. }
  rewrite Heq. unfold delay_sum in *. cbn [Number.add] in *.
  eexists. split; [reflexivity|].
  cbn [in_range] in Hall. now apply andb_prop in Hall.
Qed.

(** C7 (the code departs from it).  [subjectWeights] is a plain object
    too.  For the subject area [constructor], [subjectWeights[subjectArea]]
    is the inherited built-in function, which is truthy, so the default
    weight is not taken and the sum of the number and the function is a
    string concatenation: at index 0 and period 1 the delay is not a number
    in any range but the text of [0.1 + 0.16], the source text of the
    function and [0].  (With an array of 1477 entries the delay of the last
    one is [NaN]: [fib(1477)] overflows to infinity, whose remainder is
    [NaN].) *)
Theorem calculateFibonacciDelay_inherited_subject :
  Current.calculateFibonacciDelay 0 (Number.of_Z 1) (VString (str "constructor"))
  = VString [ NumberText (0.1 + 0.16)%float; NativeCode "constructor";
              NumberText 0%float ] /\
  (forall x,
     Current.calculateFibonacciDelay 0 (Number.of_Z 1)
       (VString (str "constructor")) <> VNumber x) /\
  Current.calculateFibonacciDelay 1476 (Number.of_Z 1) (VString (str "Math"))
  = VNumber nan.
Proof.
  split; [vm_compute; reflexivity|].
  split; [intros x; vm_compute; discriminate|].
  vm_compute; reflexivity.
Qed.

(** * Entries with missing fields *)

Lemma shows_undefined (c : classItem) (k : card) :
  shows c k -> undefined_where_missing c k.
Proof.
  intros (H1 & H2 & H3 & H4 & H5).
  repeat split; intros H;
    [rewrite H1|rewrite H2|rewrite H3|rewrite H4|rewrite H5];
    rewrite H; reflexivity.
Qed.

(** C8.  Nothing validates the entries: a list of entries in which fields
    are missing still renders, one card per entry, and each missing field
    shows as the text [undefined] in its place in the card. *)
Theorem missing_fields_render_undefined (v : version) (fileName : value)
    (status : Z) (l : list classItem) (d : dom) :
  ok status = true ->
  let o := Response status (Parsed (JArray (map Item l))) in
  let d' := snd (loadSchedule_of v fileName o d) in
  exists sorted,
    Permutation l sorted /\
    statusDiv d' = Cleared /\
    console d' = console d /\
    Forall2 (fun c k => shows c k /\ undefined_where_missing c k)
      sorted (scheduleContainer d').
Proof.
  intros Hok o d'. exists (sort_items l).
  unfold d', loadSchedule_of. rewrite loadSchedule_unfold.
  fold (settle_of v). unfold o. rewrite settle_of_Items by assumption.
  simpl. repeat split; [apply sort_items_perm|].
  eapply Forall2_impl; [|apply cards_of_shows].
  intros c k H; split; [exact H|now apply shows_undefined].
Qed.

Lemma missing_fields_render_undefined_witness :
  ok 200 = true /\
  exists sorted,
    Permutation partial_entries sorted /\
    statusDiv
      (snd (loadSchedule_of earlier (VString (str "ChangSchedule.json"))
              (Response 200 (Parsed (JArray (map Item partial_entries))))
              blank_page)) = Cleared /\
    console
      (snd (loadSchedule_of earlier (VString (str "ChangSchedule.json"))
              (Response 200 (Parsed (JArray (map Item partial_entries))))
              blank_page)) = console blank_page /\
    Forall2 (fun c k => shows c k /\ undefined_where_missing c k)
      sorted
      (scheduleContainer
         (snd (loadSchedule_of earlier (VString (str "ChangSchedule.json"))
                 (Response 200 (Parsed (JArray (map Item partial_entries))))
                 blank_page))).
Proof.
  split; [reflexivity|].
  exact (missing_fields_render_undefined earlier
           (VString (str "ChangSchedule.json")) 200 partial_entries
           blank_page eq_refl).
Defined.

Example partial_entries_rendered :
  scheduleContainer
    (snd (loadSchedule_of current (VString (str "HankSchedule.json"))
            (Response 200 (Parsed (JArray (map Item partial_entries))))
            blank_page))
  = [ {| animation_delay := [NumberText nan];
         period_badge := str "undefined";
         icon := Some (str "fa-solid fa-book-open");
         class_name := str "Study Hall";
         teacher_info := str "undefined";
         room_info := str "Library";
         subject_badge := str "undefined" |} ].
Proof. vm_compute. reflexivity. Qed.

(** * The catalogs *)

Lemma resources_named (v : version) (r : string) :
  In r (resources v) ->
  exists name,
    name <> EmptyString /\
    own_property (scheduleNames_of v) r = Some (VString (str name)).
Proof.
  destruct v; simpl;
    intros H; repeat (destruct H as [<-|H]; [eexists; split; [|reflexivity]; discriminate|]);
    contradiction.
Qed.

(** C9.  The two catalogs agree: every value of [scheduleFiles] is a
    resource name that [scheduleNames] has a non-empty label for, and so
    has the default resource of the start-up load.  Hence every load that a
    mapped key, the dropdown (whose options are the catalog's resources) or
    the start-up starts asks for a resource with a label, and when it
    succeeds the schedule label is that display name followed by
    ['s Schedule]. *)
Theorem catalogs_consistent (v : version) :
  Forall (fun kv => exists r, snd kv = VString (str r) /\ In r (resources v))
    (scheduleFiles_of v) /\
  In (defaultFile_of v) (resources v) /\
  (forall r,
     In r (resources v) ->
     exists name,
       name <> EmptyString /\
       own_property (scheduleNames_of v) r = Some (VString (str name)) /\
       forall status l d,
         ok status = true ->
         currentScheduleDisplay
           (snd (loadSchedule_of v (VString (str r))
                   (Response status (Parsed (JArray (map Item l)))) d))
         = [Chars name; Chars "'s Schedule"]) /\
  (forall s k x,
     own_property (scheduleFiles_of v) k = Some x ->
     exists r, In r (resources v) /\
               pending (step_of v s (KeyDown k)) = pending s ++ [VString (str r)]) /\
  (forall s r,
     catalog_page v (page s) -> In r (resources v) ->
     pending (step_of v s (Change r)) = pending s ++ [VString (str r)]) /\
  (forall s,
     pending (step_of v s DOMContentLoaded)
     = pending s ++ [VString (str (defaultFile_of v))]).
Proof.
  split; [destruct v; repeat constructor; eexists; split;
          try reflexivity; simpl; tauto|].
  split; [destruct v; simpl; tauto|].
  split; [|split; [|split]].
  - intros r Hr. destruct (resources_named v r Hr) as (name & Hne & Hown).
    exists name. repeat split; trivial.
    intros status l d Hok.
    unfold loadSchedule_of. rewrite loadSchedule_unfold. fold (settle_of v).
    rewrite settle_of_Items by assumption.
    cbn [snd loaded currentScheduleDisplay].
    unfold label, get_value. cbv [ToPropertyKey str]. unfold get.
    now rewrite Hown.
  - intros s k x Hx.
    destruct (own_scheduleFiles v k x Hx) as (_ & r & -> & Hne & Hin).
    exists r. split.
    + unfold resources. apply in_flat_map.
      exists (k, VString (str r)). split; [exact Hin|simpl; tauto].
    + unfold step_of, step, on_keydown, get. rewrite Hx.
      assert (Htruthy : truthy (VString (str r)) = true)
        by (simpl; destruct r; [now elim Hne|reflexivity]).
      now rewrite Htruthy.
  - intros s r Hpage Hr. unfold step_of, step, on_change.
    unfold run at 1 2, modify; cbn [snd page].
    unfold set_value; cbn [ToString str scheduleSelect selected].
    rewrite Hpage.
    destruct (in_dec string_dec r (resources v)); [reflexivity|contradiction].
  - intros s. reflexivity.
Qed.

Lemma catalogs_consistent_witness :
  In "HankSchedule.json" (resources current) /\
  ok 200 = true /\
  exists name,
    name <> EmptyString /\
    own_property (scheduleNames_of current) "HankSchedule.json"
    = Some (VString (str name)) /\
    currentScheduleDisplay
      (snd (loadSchedule_of current (VString (str "HankSchedule.json"))
              (Response 200 (Parsed (JArray (map Item example_entries))))
              blank_page))
    = [Chars name; Chars "'s Schedule"].
Proof.
  assert (H : In "HankSchedule.json" (resources current)) by (simpl; tauto).
  split; [exact H|]. split; [reflexivity|].
  destruct (proj1 (proj2 (proj2 (catalogs_consistent current)))
              "HankSchedule.json" H) as (name & Hne & Hown & Hlabel).
  exists name. split; [exact Hne|]. split; [exact Hown|].
  exact (Hlabel 200 example_entries blank_page eq_refl).
Defined.

(** * Further properties of the loader *)

(** What a settled request does is fixed by the file name and the
    outcome alone: the same cards, and the same error if any, on whatever
    page it runs. *)
Lemma settle_of_uniform (v : version) (fileName : value) (o : outcome) :
  exists cards r,
    forall d,
      settle_of v fileName o d
      = (Ok tt,
         match r with
         | None => loaded (label (scheduleNames_of v) fileName) cards d
         | Some e => failed_after cards e d
         end).
Proof. apply settle_uniform. Qed.

Lemma loadSchedule_of_settle (v : version) (fileName : value) (o : outcome)
    (d : dom) :
  loadSchedule_of v fileName o d = settle_of v fileName o (begun d).
Proof. reflexivity. Qed.

(** [loadSchedule] never rejects: whatever the request settles to, and
    whatever the page, the call completes.  It either clears the status
    and logs nothing, or shows the alert for one error and logs that same
    error, once, to the console. *)
Theorem loadSchedule_never_rejects (v : version) (fileName : value)
    (o : outcome) (d : dom) :
  let r := loadSchedule_of v fileName o d in
  fst r = Ok tt /\
  ((statusDiv (snd r) = Cleared /\ console (snd r) = console d) \/
   (exists e,
      statusDiv (snd r) = Alert (message e) /\
      currentScheduleDisplay (snd r) = str "Error loading schedule" /\
      console (snd r) = console d ++ [e])).
Proof.
  intros r. unfold r. rewrite loadSchedule_of_settle.
  destruct (settle_of_uniform v fileName o) as (cards & [e|] & H);
    rewrite H; split; trivial.
  - right. exists e. repeat split.
  - left. split; reflexivity.
Qed.

(** A load that nothing interleaves with replaces what the page showed:
    the status, the label and the cards it leaves do not depend on the
    page it started from.  The dropdown is not touched. *)
Theorem loadSchedule_replaces_page (v : version) (fileName : value)
    (o : outcome) (d1 d2 : dom) :
  let r1 := snd (loadSchedule_of v fileName o d1) in
  let r2 := snd (loadSchedule_of v fileName o d2) in
  statusDiv r1 = statusDiv r2 /\
  currentScheduleDisplay r1 = currentScheduleDisplay r2 /\
  scheduleContainer r1 = scheduleContainer r2 /\
  scheduleSelect r1 = scheduleSelect d1.
Proof.
  intros r1 r2. unfold r1, r2. rewrite !loadSchedule_of_settle.
  destruct (settle_of_uniform v fileName o) as (cards & [e|] & H);
    rewrite !H; repeat split.
Qed.

Lemma set_value_selected (r : string) (d : dom) :
  In r (options (scheduleSelect d)) ->
  set_value (VString (str r)) d
  = {| statusDiv := statusDiv d;
       scheduleContainer := scheduleContainer d;
       currentScheduleDisplay := currentScheduleDisplay d;
       scheduleSelect := {| options := options (scheduleSelect d); selected := r |};
       console := console d |}.
Proof.
  intros Hr. unfold set_value. cbn [ToString str].
  destruct (in_dec string_dec r (options (scheduleSelect d)));
    [reflexivity|contradiction].
Qed.

(** A choice in the dropdown starts the load of the chosen resource. *)
Lemma step_Change (v : version) (s : state) (r : string) :
  In r (options (scheduleSelect (page s))) ->
  step_of v s (Change r)
  = {| page := begun (set_value (VString (str r)) (page s));
       pending := pending s ++ [VString (str r)] |}.
Proof.
  intros Hr. unfold step_of, step, on_change, call_loadSchedule.
  unfold run, modify. cbn [snd page pending].
  rewrite (set_value_selected r (page s) Hr). reflexivity.
Qed.

Lemma step_Settle (v : version) (s : state) (n : nat) (o : outcome)
    (fileName : value) :
  nth_error (pending s) n = Some fileName ->
  step_of v s (Settle n o)
  = {| page := snd (settle_of v fileName o (page s));
       pending := remove_nth n (pending s) |}.
Proof. intros H. unfold step_of, step. now rewrite H. Qed.

Lemma steps_of_cons (v : version) (s : state) (ev : event) (evs : list event) :
  steps_of v s (ev :: evs) = steps_of v (step_of v s ev) evs.
Proof. reflexivity. Qed.

Lemma steps_of_nil (v : version) (s : state) : steps_of v s [] = s.
Proof. reflexivity. Qed.

(** Two choices in the dropdown, the second made before the request of the
    first has settled, and the second request settling first.  The page
    ends with the cards of the second schedule followed by those of the
    first, under the status and the label of the first (the last to
    settle), while the dropdown shows the second (the last chosen). *)
Theorem overlapping_last_settled_wins (v : version) (s : state)
    (r1 r2 : string) (o1 o2 : outcome) :
  pending s = [] ->
  In r1 (options (scheduleSelect (page s))) ->
  In r2 (options (scheduleSelect (page s))) ->
  let s' := steps_of v s [Change r1; Change r2; Settle 1 o2; Settle 0 o1] in
  let alone1 := snd (loadSchedule_of v (VString (str r1)) o1 (page s)) in
  let alone2 := snd (loadSchedule_of v (VString (str r2)) o2 (page s)) in
  pending s' = [] /\
  scheduleContainer (page s')
  = scheduleContainer alone2 ++ scheduleContainer alone1 /\
  statusDiv (page s') = statusDiv alone1 /\
  currentScheduleDisplay (page s') = currentScheduleDisplay alone1 /\
  selected (scheduleSelect (page s')) = r2.
Proof.
  intros Hp H1 H2 s' alone1 alone2.
  assert (Hs' : s' = {| page := snd (settle_of v (VString (str r1)) o1
                                  (snd (settle_of v (VString (str r2)) o2
                                     (begun (set_value (VString (str r2))
                                        (begun (set_value (VString (str r1)) (page s))))))));
                        pending := [] |}).
  { unfold s'. rewrite !steps_of_cons, steps_of_nil.
    rewrite (step_Change v s r1 H1).
    rewrite step_Change.
    2:{ cbn [page]. rewrite (set_value_selected r1 (page s) H1). exact H2. }
    cbn [page pending]. rewrite Hp. cbn [app].
    rewrite (step_Settle v _ 1 o2 (VString (str r2))) by reflexivity.
    cbn [page pending remove_nth].
    rewrite (step_Settle v _ 0 o1 (VString (str r1))) by reflexivity.
    reflexivity. }
  rewrite Hs'. unfold alone1, alone2. rewrite !loadSchedule_of_settle.
  cbn [page pending].
  rewrite (set_value_selected r1 (page s) H1).
  rewrite set_value_selected by exact H2.
  destruct (settle_of_uniform v (VString (str r1)) o1) as (c1 & [e1|] & E1);
  destruct (settle_of_uniform v (VString (str r2)) o2) as (c2 & [e2|] & E2);
  rewrite !E1, !E2; cbn; repeat split; now rewrite ?app_nil_r.
Qed.

Lemma overlapping_last_settled_wins_witness :
  pending start = [] /\
  In "AadarshSchedule.json" (options (scheduleSelect (page start))) /\
  In "HankSchedule.json" (options (scheduleSelect (page start))) /\
  let s' := steps_of current start
              [ Change "AadarshSchedule.json";
                Change "HankSchedule.json";
                Settle 1 (Response 200 (Parsed (JArray (map Item tie_entries))));
                Settle 0 (Response 200
                            (Parsed (JArray (map Item example_entries)))) ] in
  currentScheduleDisplay (page s')
  = currentScheduleDisplay
      (snd (loadSchedule_of current (VString (str "AadarshSchedule.json"))
              (Response 200 (Parsed (JArray (map Item example_entries))))
              (page start))) /\
  selected (scheduleSelect (page s')) = "HankSchedule.json".
Proof.
  assert (H1 : In "AadarshSchedule.json" (options (scheduleSelect (page start))))
    by (simpl; tauto).
  assert (H2 : In "HankSchedule.json" (options (scheduleSelect (page start))))
    by (simpl; tauto).
  split; [reflexivity|]. split; [exact H1|]. split; [exact H2|].
  pose proof (overlapping_last_settled_wins current start
                "AadarshSchedule.json" "HankSchedule.json"
                (Response 200 (Parsed (JArray (map Item example_entries))))
                (Response 200 (Parsed (JArray (map Item tie_entries))))
                eq_refl H1 H2) as H.
  split; [exact (proj1 (proj2 (proj2 (proj2 H))))
         |exact (proj2 (proj2 (proj2 (proj2 H))))].
Defined.

(** ** Bodies that are not lists of entries *)

(** With an ok status, a body that parses to [null], to a value that is
    not an array, or to an array with a [null] among its elements renders
    nothing, not even the entries beside the [null]: the engine's
    [TypeError] is caught, its message is shown in the alert and it is
    logged. *)
Theorem loadSchedule_bad_body (v : version) (fileName : value) (status : Z)
    (j : document) (d : dom) :
  ok status = true ->
  not_entries j ->
  let d' := snd (loadSchedule_of v fileName (Response status (Parsed j)) d) in
  exists diag,
    statusDiv d' = Alert [EngineText diag] /\
    currentScheduleDisplay d' = str "Error loading schedule" /\
    scheduleContainer d' = [] /\
    console d' = console d ++ [TypeError diag].
Proof.
  intros Hok Hj d'. unfold d'. rewrite loadSchedule_of_settle.
  destruct Hj as [->|[->|(l & -> & Hin)]].
  - exists (PropertyOfNull "sort"). unfold settle_of.
    rewrite settle_JNull by assumption. repeat split.
  - exists (NotAFunction "scheduleData.sort"). unfold settle_of.
    rewrite settle_JOther by assumption. repeat split.
  - rewrite settle_of_array by assumption.
    destruct l as [|x [|y l]]; [contradiction| |].
    + destruct Hin as [->|[]]. rewrite sort_singleton.
      destruct v.
      * exists (PropertyOfNull "subjectArea"). repeat split.
      * exists (PropertyOfNull "period"). repeat split.
    + destruct (sort_Null (x :: y :: l) Hin) as (e & He); [simpl; lia|].
      rewrite He. destruct (sort_Throw _ _ He) as (diag & ->).
      exists diag. repeat split.
Qed.

Lemma loadSchedule_bad_body_witness :
  ok 200 = true /\
  not_entries (JArray [Item (entry 1 "Algebra II" "Mr. Diaz" 104 "Math"); Null]) /\
  scheduleContainer
    (snd (loadSchedule_of current (VString (str "EthanSchedule.json"))
            (Response 200
               (Parsed (JArray [Item (entry 1 "Algebra II" "Mr. Diaz" 104 "Math");
                                Null])))
            blank_page)) = [].
Proof.
  assert (H : not_entries
                (JArray [Item (entry 1 "Algebra II" "Mr. Diaz" 104 "Math"); Null])).
  { right; right. eexists; split; [reflexivity|]. simpl; tauto. }
  split; [reflexivity|]. split; [exact H|].
  destruct (loadSchedule_bad_body current (VString (str "EthanSchedule.json"))
              200 _ blank_page eq_refl H) as (diag & _ & _ & Hc & _).
  exact Hc.
Defined.

(** ** Flows through the handlers *)






(** ** Edge cases of a successful answer *)

(** An empty array is a schedule without entries: the status is cleared,
    the label set, no card and no alert are shown and nothing is logged. *)
Theorem loadSchedule_empty_schedule (v : version) (fileName : value)
    (status : Z) (d : dom) :
  ok status = true ->
  snd (loadSchedule_of v fileName (Response status (Parsed (JArray []))) d)
  = {| statusDiv := Cleared;
       scheduleContainer := [];
       currentScheduleDisplay := label (scheduleNames_of v) fileName;
       scheduleSelect := scheduleSelect d;
       console := console d |}.
Proof.
  intros Hok. rewrite loadSchedule_of_settle.
  exact (f_equal snd (settle_of_Items v fileName status [] (begun d) Hok)).
Qed.

Lemma loadSchedule_empty_schedule_witness :
  ok 204 = true /\
  scheduleContainer
    (snd (loadSchedule_of current (VString (str "HankSchedule.json"))
            (Response 204 (Parsed (JArray []))) blank_page)) = [].
Proof.
  split; [reflexivity|].
  exact (f_equal scheduleContainer
           (loadSchedule_empty_schedule current
              (VString (str "HankSchedule.json")) 204 blank_page eq_refl)).
Defined.


(** ** The helpers, further *)

(** [NaN] absorbs an addition. *)
Lemma nan_add (x : float) : (nan + x)%float = nan.
Proof.
  rewrite <- (SF2Prim_Prim2SF (nan + x)). rewrite add_spec.
  destruct (Prim2SF x); reflexivity.
Qed.

(** Once both numbers of the loop are infinite they stay so. *)
Lemma fib_loop_inf (k : nat) : Current.fib_loop k infinity infinity = infinity.
Proof. induction k as [|k IH]; [reflexivity|]. exact IH. Qed.

(** The loop run [S m + k] times is the loop run [k] times from where
    [S m] turns leave it. *)
Lemma fib_loop_split (m k : nat) (a b : float) :
  Current.fib_loop (S m + k) a b
  = Current.fib_loop k (Current.fib_loop m a b) (Current.fib_loop (S m) a b).
Proof.
  revert a b; induction m as [|m IH]; intros a b; [reflexivity|].
  change (Current.fib_loop (S (S m) + k) a b)
    with (Current.fib_loop (S m + k) b (a + b)%float).
  rewrite IH. reflexivity.
Qed.

(** From [fib(1477)] on the result is infinite. *)
Lemma fib_overflow (index : nat) :
  (1476 <= index)%nat -> Current.fib (index + 1) = infinity.
Proof.
  intros H. unfold Current.fib.
  destruct (Nat.leb_spec (index + 1) 1) as [H1|_]; [lia|].
  replace (index + 1 - 1)%nat with index by lia.
  destruct (Nat.eq_dec index 1476) as [->|Hne].
  - vm_compute. reflexivity.
  - replace index with (S 1476 + (index - 1477))%nat by lia.
    rewrite fib_loop_split.
    replace (Current.fib_loop 1476 0 1) with infinity by (vm_compute; reflexivity).
    replace (Current.fib_loop 1477 0 1) with infinity by (vm_compute; reflexivity).
    apply fib_loop_inf.
Qed.

(** From the 1477th card on (index 1476 and beyond) the delay is [NaN],
    whatever the period and the subject (one that names nothing
    inherited): [fib] has overflowed to infinity, and the remainder of
    infinity is [NaN]. *)
Theorem calculateFibonacciDelay_overflow (index : nat) (period : float)
    (sa : option string) :
  (1476 <= index)%nat ->
  (forall s, sa = Some s -> inherited s = false) ->
  Current.calculateFibonacciDelay index period (string_value sa) = VNumber nan.
Proof.
  intros Hi Hsa.
  destruct (subject_weight sa Hsa) as (w & _ & Hw).
  unfold Current.calculateFibonacciDelay.
  rewrite Hw, (fib_overflow index Hi).
  replace (Number.rem infinity 8) with nan by (vm_compute; reflexivity).
  replace (nan * 0.1)%float with nan by (vm_compute; reflexivity).
  cbn [Number.add]. now rewrite !nan_add.
Qed.

Lemma calculateFibonacciDelay_overflow_witness :
  (1476 <= 2000)%nat /\
  (forall s, Some "Science" = Some s -> inherited s = false) /\
  Current.calculateFibonacciDelay 2000 (Number.of_Z 4)
    (string_value (Some "Science")) = VNumber nan.
Proof.
  assert (H1 : (1476 <= 2000)%nat) by lia.
  assert (H2 : forall s, Some "Science" = Some s -> inherited s = false)
    by (intros s H; injection H as <-; reflexivity).
  split; [exact H1|]. split; [exact H2|].
  exact (calculateFibonacciDelay_overflow 2000 (Number.of_Z 4)
           (Some "Science") H1 H2).
Defined.

Lemma calculateFibonacciDelay_bounded_witness :
  (3 < 1476)%nat /\
  1 <= 2 <= 8 /\
  (forall s, Some "Math" = Some s -> inherited s = false) /\
  exists x,
    Current.calculateFibonacciDelay 3 (Number.of_Z 2) (string_value (Some "Math"))
    = VNumber x /\
    PrimFloat.leb 0.05 x = true /\ PrimFloat.leb x 1.05 = true.
Proof.
  assert (H1 : (3 < 1476)%nat) by lia.
  assert (H2 : 1 <= 2 <= 8) by lia.
  assert (H3 : forall s, Some "Math" = Some s -> inherited s = false)
    by (intros s H; injection H as <-; reflexivity).
  split; [exact H1|]. split; [exact H2|]. split; [exact H3|].
  exact (calculateFibonacciDelay_bounded 3 2 (Some "Math") H1 H2 H3).
Defined.

Lemma keydown_unmapped_ignored_witness :
  ~ In "a" ["1"; "2"; "3"; "4"] /\
  inherited "a" = false /\
  step_of current start (KeyDown "a") = start.
Proof.
  assert (H1 : ~ In "a" ["1"; "2"; "3"; "4"]) by (simpl; intuition discriminate).
  split; [exact H1|]. split; [reflexivity|].
  exact (keydown_unmapped_ignored current start "a" H1 eq_refl).
Defined.

(** [fib] in doubles is the Fibonacci sequence itself, with no rounding,
    up to [fib(78)], the last one below [2^53]. *)
Theorem fib_exact (n : nat) :
  (n <= 78)%nat ->
  Current.fib n = Number.of_Z (Fibonacci n) /\ Fibonacci n < 2 ^ 53.
Proof.
  intros Hn.
  assert (H : Forall (fun n => Current.fib n = Number.of_Z (Fibonacci n) /\
                               Fibonacci n < 2 ^ 53) (seq 0 79)).
  { cbv [seq].
    repeat (apply Forall_cons; [split; vm_compute; reflexivity|]).
    apply Forall_nil. }
  rewrite Forall_forall in H. apply H. apply in_seq. lia.
Qed.

Lemma fib_exact_witness :
  (10 <= 78)%nat /\ Current.fib 10 = Number.of_Z 55.
Proof.
  assert (H : (10 <= 78)%nat) by lia.
  split; [exact H|]. exact (proj1 (fib_exact 10 H)).
Defined.

(** For every subject area that names nothing inherited, and for a
    missing one, [getSubjectIcon] returns a Font Awesome solid class; it is
    the book-open fallback whenever [iconMap] has no entry for the
    subject. *)
Theorem getSubjectIcon_class (sa : option string) :
  (forall s, sa = Some s -> inherited s = false) ->
  (exists name,
     Current.getSubjectIcon (string_value sa)
     = VString (str ("fa-solid fa-" ++ name))) /\
  (own_property Current.iconMap
     (match sa with Some s => s | None => "undefined" end) = None ->
   Current.getSubjectIcon (string_value sa) = fallback_icon).
Proof.
  intros Hsa. split.
  - destruct sa as [s|]; [|eexists; reflexivity].
    specialize (Hsa s eq_refl).
    unfold Current.getSubjectIcon, get_value.
    cbv [string_value ToPropertyKey str]. unfold get. rewrite Hsa.
    cbv [Current.iconMap object map own_property fst snd].
    repeat (match goal with
            | |- context [String.eqb ?a s] => destruct (String.eqb a s)
            end;
            [ eexists; reflexivity | ]).
    eexists; reflexivity.
  - destruct sa as [s|]; [|reflexivity].
    intros Hown. now apply getSubjectIcon_other; [|apply Hsa].
Qed.

Lemma getSubjectIcon_class_witness :
  (forall s, Some "Art" = Some s -> inherited s = false) /\
  Current.getSubjectIcon (string_value (Some "Art")) = fallback_icon.
Proof.
  assert (H : forall s, Some "Art" = Some s -> inherited s = false)
    by (intros s E; injection E as <-; reflexivity).
  split; [exact H|].
  exact (proj2 (getSubjectIcon_class (Some "Art") H) eq_refl).
Defined.

(** When the request itself is rejected (no response at all), the call
    ends in the error state with the message of the rejection in the
    alert: no card, the error label, the rejection logged, and the
    dropdown as it was. *)
Theorem loadSchedule_fetch_rejected (v : version) (fileName : value)
    (e : error) (d : dom) :
  loadSchedule_of v fileName (Rejected e) d
  = (Ok tt,
     {| statusDiv := Alert (message e);
        scheduleContainer := [];
        currentScheduleDisplay := str "Error loading schedule";
        scheduleSelect := scheduleSelect d;
        console := console d ++ [e] |}).
Proof.
  rewrite loadSchedule_of_settle. unfold settle_of.
  now rewrite settle_Rejected.
Qed.
